(** * PromptToHoneypot: the artifact extractor, the gateway calculator and the
    container lifecycle calls of [script.py] and [utils.py], embedded in Rocq.

    Python values are modelled as the interpreter has them: a [str] is a
    sequence of Unicode code points, an [int] is unbounded, a raised exception
    is an outcome of its own, and everything that prints, logs or starts a
    subprocess threads an explicit world. *)

From Stdlib Require Import List ZArith NArith Lia Bool String Ascii DecimalString.
Import ListNotations.

Set Implicit Arguments.

(** ** Python runtime values *)

Module Py.

(** A [str] is a sequence of code points. *)
Definition char := N.
Definition pystr := list char.

(** [u "..."] is the literal with the given (ASCII) text. *)
Definition u (s : string) : pystr := map N_of_ascii (list_ascii_of_string s).

Definition NEWLINE : char := 10%N.
Definition BACKTICK : char := 96%N.
Definition DOT : char := 46%N.
Definition SLASH : char := 47%N.

Definition str_eqb (a b : pystr) : bool :=
  if list_eq_dec N.eq_dec a b then true else false.

(** [str.isspace] on one code point (CPython's [_PyUnicode_IsWhitespace]). *)
Definition isspace (c : char) : bool :=
  ((9 <=? c) && (c <=? 13) || (28 <=? c) && (c <=? 32)
   || (c =? 133) || (c =? 160) || (c =? 5760)
   || (8192 <=? c) && (c <=? 8202)
   || (c =? 8232) || (c =? 8233) || (c =? 8239) || (c =? 8287)
   || (c =? 12288))%N.

Fixpoint lstrip (s : pystr) : pystr :=
  match s with
  | [] => []
  | c :: s' => if isspace c then lstrip s' else s
  end.

Definition rstrip (s : pystr) : pystr := rev (lstrip (rev s)).

(** [s.strip()] *)
Definition strip (s : pystr) : pystr := rstrip (lstrip s).

(** A surrogate code point, U+D800 to U+DFFF. A [str] may hold one on its
    own ([json] makes one of an unpaired escape); UTF-8 has no bytes for
    it. *)
Definition surrogate (c : char) : bool := ((55296 <=? c) && (c <=? 57343))%N.

(** [s.encode("utf-8")] does not raise. *)
Definition encodable (s : pystr) : bool := negb (existsb surrogate s).

(** Exception classes that the modelled code can meet; all derive from
    [Exception]. *)
Inductive exn_class :=
| Exception
| ValueError | AddressValueError | NetmaskValueError
| OSError | FileNotFoundError | UnicodeDecodeError | UnicodeEncodeError
| CalledProcessError
| AttributeError | TypeError | KeyError | IndexError.

(** What an exception says; the library's message templates are kept as
    tags, with the offending text where the template quotes it. *)
Inductive message :=
| EmptyAddress
| ExpectedFourOctets (ip_str : pystr)
| OnlyOneSlash (address : pystr)
| InOctets (why : message) (ip_str : pystr)
| EmptyOctet
| OnlyDecimalDigits (octet_str : pystr)
| AtMostThreeCharacters (octet_str : pystr)
| LeadingZeros (octet_str : pystr)
| OctetTooLarge (octet_int : Z)
| NotAValidNetmask (netmask_str : pystr)
| MixesZeroesAndOnes (ip_int : Z)
| IntNegative (address : Z)
| IntTooLarge (address : Z)
| InvalidSubnetFormat (why : message)
| NonZeroExit (returncode : Z) (cmd : list pystr)
| SurrogatesNotAllowed (c : char)
| Other (text : pystr).

Record exn := Exn { cls : exn_class; msg : message }.

(** [issubclass(c, d)] on the classes above. *)
Definition subclass (c d : exn_class) : bool :=
  match c, d with
  | _, Exception
  | ValueError, ValueError
  | AddressValueError, AddressValueError
  | AddressValueError, ValueError
  | NetmaskValueError, NetmaskValueError
  | NetmaskValueError, ValueError
  | UnicodeDecodeError, UnicodeDecodeError
  | UnicodeDecodeError, ValueError
  | UnicodeEncodeError, UnicodeEncodeError
  | UnicodeEncodeError, ValueError
  | OSError, OSError
  | FileNotFoundError, FileNotFoundError
  | FileNotFoundError, OSError
  | CalledProcessError, CalledProcessError
  | AttributeError, AttributeError
  | TypeError, TypeError
  | KeyError, KeyError
  | IndexError, IndexError => true
  | _, _ => false
  end.

(** A call either returns or raises. *)
Inductive outcome (A : Type) :=
| Returned (a : A)
| Raised (e : exn).
Arguments Returned {A} a.
Arguments Raised {A} e.

(** Pure code that may raise. *)
Definition obind {A B} (m : outcome A) (k : A -> outcome B) : outcome B :=
  match m with
  | Returned a => k a
  | Raised e => Raised e
  end.

(** [try: m  except c: h] for pure code. *)
Definition oexcept {A} (m : outcome A) (c : exn_class) (h : exn -> outcome A)
  : outcome A :=
  match m with
  | Returned a => Returned a
  | Raised e => if subclass (cls e) c then h e else Raised e
  end.

(** Floats as [json] can produce them. *)
Inductive pyfloat :=
| FNan
| FInf (negative : bool)
| FFinite (mantissa exponent : Z).

(** The values [response.json()] can return. *)
#[warnings="-register-all"]
Inductive pyval :=
| PNone
| PBool (b : bool)
| PInt (z : Z)
| PFloat (f : pyfloat)
| PStr (s : pystr)
| PList (l : list pyval)
| PDict (d : list (pystr * pyval)).

(** Truth value of an object, as [if x:] and [not x] test it. *)
Definition truthy (v : pyval) : bool :=
  match v with
  | PNone => false
  | PBool b => b
  | PInt z => negb (z =? 0)%Z
  | PFloat (FFinite m _) => negb (m =? 0)%Z
  | PFloat _ => true
  | PStr s => match s with [] => false | _ => true end
  | PList l => match l with [] => false | _ => true end
  | PDict d => match d with [] => false | _ => true end
  end.

Fixpoint lookup {V} (k : pystr) (d : list (pystr * V)) : option V :=
  match d with
  | [] => None
  | (k', v) :: d' => if str_eqb k k' then Some v else lookup k d'
  end.

(** [o.get(key, default)]: only a dict has the method. *)
Definition get (o : pyval) (key : pystr) (default : pyval) : outcome pyval :=
  match o with
  | PDict d =>
      match lookup key d with
      | Some v => Returned v
      | None => Returned default
      end
  | _ => Raised (Exn AttributeError (Other (u "get")))
  end.

(** [o[0]] *)
Definition getitem0 (o : pyval) : outcome pyval :=
  match o with
  | PList (x :: _) => Returned x
  | PList [] => Raised (Exn IndexError (Other (u "list index out of range")))
  | PStr (c :: _) => Returned (PStr [c])
  | PStr [] => Raised (Exn IndexError (Other (u "string index out of range")))
  | PDict _ => Raised (Exn KeyError (Other (u "0")))
  | _ => Raised (Exn TypeError (Other (u "not subscriptable")))
  end.

(** [l[i]] on a list, for an index that is not negative. *)
Definition list_getitem {A} (l : list A) (i : nat) : outcome A :=
  match nth_error l i with
  | Some x => Returned x
  | None => Raised (Exn IndexError (Other (u "list index out of range")))
  end.

End Py.
Import Py.

(** ** The regular expression of the extractor

    [re.findall] with the pattern of [extractRelevantContent]: three
    backticks, a greedy run of characters other than newline (not captured),
    a newline, a lazy captured run of any characters, three backticks. The
    pattern has no alternation, so the backtracking matcher has one way
    through it. *)

Module Re.

(** The three backticks at the head of [s]; what follows them. *)
Definition fence (s : pystr) : option pystr :=
  match s with
  | a :: b :: c :: rest =>
      if ((a =? BACKTICK) && (b =? BACKTICK) && (c =? BACKTICK))%N
      then Some rest else None
  | _ => None
  end.

(** The label and its newline: the greedy run stops at the first newline,
    which the newline of the pattern must match; giving characters back
    would put a non-newline under it. *)
Fixpoint label_line (s : pystr) : option pystr :=
  match s with
  | [] => None
  | c :: s' => if (c =? NEWLINE)%N then Some s' else label_line s'
  end.

(** The captured group and the closing fence: the lazy group grows one
    character at a time until three backticks follow; the group and the text
    after the fence. *)
Fixpoint lazy_body (s : pystr) : option (pystr * pystr) :=
  match fence s with
  | Some rest => Some ([], rest)
  | None =>
      match s with
      | [] => None
      | c :: s' =>
          match lazy_body s' with
          | Some (body, rest) => Some (c :: body, rest)
          | None => None
          end
      end
  end.

(** One attempt of the whole pattern at the head of [s]. *)
Definition match_here (s : pystr) : option (pystr * pystr) :=
  match fence s with
  | None => None
  | Some s1 =>
      match label_line s1 with
      | None => None
      | Some s2 => lazy_body s2
      end
  end.

(** The scan of [findall]: try each position from the left, and after a
    match resume where the match ended. *)
Fixpoint scan (fuel : nat) (s : pystr) : list pystr :=
  match fuel with
  | O => []
  | S fuel' =>
      match s with
      | [] => []
      | _ :: s' =>
          match match_here s with
          | Some (body, rest) => body :: scan fuel' rest
          | None => scan fuel' s'
          end
      end
  end.

Definition findall (s : pystr) : list pystr := scan (List.length s) s.

(** Do three backticks in a row occur in [s]? *)
Fixpoint has_fence (s : pystr) : bool :=
  match fence s with
  | Some _ => true
  | None => match s with [] => false | _ :: s' => has_fence s' end
  end.

End Re.

(** ** The world outside the interpreter

    Standard output, the [logging] records, and the container engine behind
    [subprocess.run]. The engine is any state machine answering a command
    line with a finished process or with the exception that starting it
    raised.

    Standard output is the text stream the interpreter opens by default:
    UTF-8 with strict error handling, so that writing a text with a lone
    surrogate raises [UnicodeEncodeError] and writes nothing. The root
    logger is the one of a program that never configures [logging], as none
    of the files does: the first call installs the default handler, on
    standard error, and the level stays at WARNING. *)

Module World.

(** A piece of a printed or logged line; a formatted object is kept as it
    is, its [str()] is not computed. *)
Inductive piece :=
| Text (s : pystr)
| Value (v : pyval)
| Error (e : exn).

Definition line := list piece.

Inductive level := INFO | ERROR.

(** [subprocess.CompletedProcess] *)
Record completed := Completed { returncode : Z; stdout : pystr }.

Record Engine := {
  state : Type;
  exec : state -> list pystr -> outcome completed * state
}.

Section Effects.
Variable G : Engine.

Record world := World {
  engine : state G;
  calls : list (list pystr);        (* command lines started, oldest first *)
  printed : list line;              (* sys.stdout, oldest first *)
  logged : list (level * line)      (* logging records made, oldest first *)
}.

Definition M (A : Type) := world -> outcome A * world.

Definition ret {A} (a : A) : M A := fun w => (Returned a, w).

Definition bind {A B} (m : M A) (k : A -> M B) : M B :=
  fun w =>
    match m w with
    | (Returned a, w') => k a w'
    | (Raised e, w') => (Raised e, w')
    end.

Definition lift {A} (o : outcome A) : M A := fun w => (o, w).

(** [try: m  except c as e: h e] *)
Definition try_except {A} (m : M A) (c : exn_class) (h : exn -> M A) : M A :=
  fun w =>
    match m w with
    | (Returned a, w') => (Returned a, w')
    | (Raised e, w') =>
        if subclass (cls e) c then h e w' else (Raised e, w')
    end.

(** The characters of a formatted piece that can be surrogates: those of
    a [str], which is formatted as it is. The [str()] of any other value,
    and of the exceptions met here, spells the strings it quotes with
    [repr()], where a surrogate is an escape sequence. *)
Definition piece_text (p : piece) : pystr :=
  match p with
  | Text s => s
  | Value (PStr s) => s
  | Value _ => []
  | Error _ => []
  end.

Definition line_text (l : line) : pystr := List.concat (map piece_text l).

(** [print(f"...")]: the line is encoded as a whole, and written only if
    that works. *)
Definition print (l : line) : M unit :=
  fun w =>
    match find surrogate (line_text l) with
    | Some c => (Raised (Exn UnicodeEncodeError (SurrogatesNotAllowed c)), w)
    | None =>
        (Returned tt,
         World (engine w) (calls w) (printed w ++ [l]) (logged w))
    end.

(** [isEnabledFor] on the root logger at WARNING. *)
Definition enabled (lv : level) : bool :=
  match lv with
  | INFO => false
  | ERROR => true
  end.

(** [logging.info(f"...")] and [logging.error(f"...")]: a record is made
    when the level is enabled. The handler cannot fail the caller: standard
    error escapes what it cannot encode, and [logging] absorbs the errors of
    its handlers. *)
Definition logging (lv : level) (l : line) : M unit :=
  fun w =>
    (Returned tt,
     if enabled lv
     then World (engine w) (calls w) (printed w) (logged w ++ [(lv, l)])
     else w).

(** [subprocess.run(cmd, check=check)]; with [check] a non-zero return code
    raises [CalledProcessError]. *)
Definition subprocess_run (cmd : list pystr) (check : bool) : M completed :=
  fun w =>
    let (r, g) := exec G (engine w) cmd in
    let w' := World g (calls w ++ [cmd]) (printed w) (logged w) in
    match r with
    | Raised e => (Raised e, w')
    | Returned p =>
        if check && negb (returncode p =? 0)%Z
        then (Raised (Exn CalledProcessError (NonZeroExit (returncode p) cmd)),
              w')
        else (Returned p, w')
    end.

End Effects.

Arguments ret {G A} a.
Arguments lift {G A} o.
Arguments print {G} l.
Arguments logging {G} lv l.
Arguments subprocess_run {G} cmd check.

End World.
Import World.

Declare Scope py_scope.
Delimit Scope py_scope with py.
Notation "x <- m ;; k" := (bind m (fun x => k))
  (at level 61, m at next level, right associativity) : py_scope.
Notation "m ;; k" := (bind m (fun _ => k))
  (at level 61, right associativity) : py_scope.
Open Scope py_scope.

(** ** The standard library's [ipaddress], as far as [IPv4Network(s,
    strict=False)], [address + 1] and [str(address)] go

    Transcribed from CPython 3.11, [Lib/ipaddress.py]. An [IPv4Address] is
    its [_ip], an unbounded [int]. The netmask cache of [_make_netmask] only
    stores what the same call computes, and is left out. *)

Module Ipaddress.

Definition IPV4LENGTH : Z := 32.
Definition _ALL_ONES : Z := 2 ^ IPV4LENGTH - 1.
Definition _max_prefixlen : Z := IPV4LENGTH.

(** [s.split(sep)] for a separator of one character. *)
Fixpoint split (sep : char) (s : pystr) : list pystr :=
  match s with
  | [] => [[]]
  | c :: s' =>
      if (c =? sep)%N then [] :: split sep s'
      else match split sep s' with
           | p :: ps => (c :: p) :: ps
           | [] => [[c]]
           end
  end.

Definition is_digit (c : char) : bool := ((48 <=? c) && (c <=? 57))%N.

(** [s.isascii() and s.isdigit()]: not empty, and '0'..'9' only. *)
Definition isascii_and_isdigit (s : pystr) : bool :=
  match s with
  | [] => false
  | _ => forallb is_digit s
  end.

(** The value of a run of ASCII digits in base ten. *)
Definition digits_value (s : pystr) : Z :=
  fold_left (fun acc c => 10 * acc + (Z.of_N c - 48))%Z s 0%Z.

(** [sys.get_int_max_str_digits()], at its default. *)
Definition int_max_str_digits : nat := 4300.

(** [int(s)] on ASCII digits. *)
Definition int_of_digits (s : pystr) : outcome Z :=
  if (int_max_str_digits <? List.length s)%nat
  then Raised (Exn ValueError
                   (Other (u "Exceeds the limit for integer string conversion")))
  else Returned (digits_value s).

(** [str(n)] *)
Definition str_of_int (n : Z) : pystr :=
  u (DecimalString.NilZero.string_of_int (Z.to_int n)).

(** [sep.join(parts)] for a separator of one character. *)
Fixpoint join (sep : char) (parts : list pystr) : pystr :=
  match parts with
  | [] => []
  | [p] => p
  | p :: ps => p ++ sep :: join sep ps
  end.

(** [n.bit_length()] *)
Definition bit_length (n : Z) : Z :=
  if (Z.abs n =? 0)%Z then 0%Z else (Z.log2 (Z.abs n) + 1)%Z.

Fixpoint mapM {A B} (f : A -> outcome B) (l : list A) : outcome (list B) :=
  match l with
  | [] => Returned []
  | x :: l' =>
      obind (f x) (fun y => obind (mapM f l') (fun ys => Returned (y :: ys)))
  end.

(** [int.from_bytes(bs, 'big')] *)
Definition from_bytes_big (bs : list Z) : Z :=
  fold_left (fun acc b => acc * 256 + b)%Z bs 0%Z.

(** [n.to_bytes(4, 'big')] for [0 <= n < 2**32]. *)
Definition to_bytes4_big (n : Z) : list Z :=
  [Z.shiftr n 24 mod 256; Z.shiftr n 16 mod 256;
   Z.shiftr n 8 mod 256; n mod 256]%Z.

Section Library.
Local Open Scope Z_scope.

Definition _split_optional_netmask (address : pystr) : outcome (list pystr) :=
  let addr := split SLASH address in
  if (2 <? List.length addr)%nat
  then Raised (Exn AddressValueError (OnlyOneSlash address))
  else Returned addr.

Definition _count_righthand_zero_bits (number bits : Z) : Z :=
  if number =? 0 then bits
  else Z.min bits (bit_length (Z.land (Z.lnot number) (number - 1))).

Definition _check_int_address (address : Z) : outcome unit :=
  if address <? 0 then Raised (Exn AddressValueError (IntNegative address))
  else if _ALL_ONES <? address
       then Raised (Exn AddressValueError (IntTooLarge address))
       else Returned tt.

Definition _ip_int_from_prefix (prefixlen : Z) : Z :=
  Z.lxor _ALL_ONES (Z.shiftr _ALL_ONES prefixlen).

Definition _prefix_from_ip_int (ip_int : Z) : outcome Z :=
  let trailing_zeroes := _count_righthand_zero_bits ip_int _max_prefixlen in
  let prefixlen := _max_prefixlen - trailing_zeroes in
  let leading_ones := Z.shiftr ip_int trailing_zeroes in
  let all_ones := Z.shiftl 1 prefixlen - 1 in
  if negb (leading_ones =? all_ones)
  then Raised (Exn ValueError (MixesZeroesAndOnes ip_int))
  else Returned prefixlen.

Definition _report_invalid_netmask {A} (netmask_str : pystr) : outcome A :=
  Raised (Exn NetmaskValueError (NotAValidNetmask netmask_str)).

Definition _prefix_from_prefix_string (prefixlen_str : pystr) : outcome Z :=
  if negb (isascii_and_isdigit prefixlen_str)
  then _report_invalid_netmask prefixlen_str
  else
    obind (oexcept (int_of_digits prefixlen_str) ValueError
                   (fun _ => _report_invalid_netmask prefixlen_str))
      (fun prefixlen =>
         if negb ((0 <=? prefixlen) && (prefixlen <=? _max_prefixlen))
         then _report_invalid_netmask prefixlen_str
         else Returned prefixlen).

Definition _parse_octet (octet_str : pystr) : outcome Z :=
  match octet_str with
  | [] => Raised (Exn ValueError EmptyOctet)
  | first :: _ =>
      if negb (isascii_and_isdigit octet_str)
      then Raised (Exn ValueError (OnlyDecimalDigits octet_str))
      else if (3 <? List.length octet_str)%nat
      then Raised (Exn ValueError (AtMostThreeCharacters octet_str))
      else if negb (str_eqb octet_str (u "0")) && (first =? 48)%N
      then Raised (Exn ValueError (LeadingZeros octet_str))
      else
        let octet_int := digits_value octet_str in
        if 255 <? octet_int
        then Raised (Exn ValueError (OctetTooLarge octet_int))
        else Returned octet_int
  end.

Definition _ip_int_from_string (ip_str : pystr) : outcome Z :=
  match ip_str with
  | [] => Raised (Exn AddressValueError EmptyAddress)
  | _ =>
      let octets := split DOT ip_str in
      if negb (List.length octets =? 4)%nat
      then Raised (Exn AddressValueError (ExpectedFourOctets ip_str))
      else
        oexcept
          (obind (mapM _parse_octet octets)
                 (fun bs => Returned (from_bytes_big bs)))
          ValueError
          (fun exc => Raised (Exn AddressValueError (InOctets (msg exc) ip_str)))
  end.

Definition _prefix_from_ip_string (ip_str : pystr) : outcome Z :=
  obind (oexcept (_ip_int_from_string ip_str) AddressValueError
                 (fun _ => _report_invalid_netmask ip_str))
    (fun ip_int =>
       oexcept (_prefix_from_ip_int ip_int) ValueError
         (fun _ =>
            let ip_int := Z.lxor ip_int _ALL_ONES in
            oexcept (_prefix_from_ip_int ip_int) ValueError
                    (fun _ => _report_invalid_netmask ip_str))).

(** The second component of what [_split_addr_prefix] returns: the text
    after the slash, or [_max_prefixlen] itself. *)
Inductive mask :=
| MaskInt (prefixlen : Z)
| MaskStr (text : pystr).

Definition _split_addr_prefix (address : pystr) : outcome (pystr * mask) :=
  obind (_split_optional_netmask address)
    (fun parts =>
       match parts with
       | [addr; m] => Returned (addr, MaskStr m)
       | addr :: _ => Returned (addr, MaskInt _max_prefixlen)
       | [] => Raised (Exn IndexError (Other (u "list index out of range")))
       end).

(** [_make_netmask(arg)]: the netmask and the prefix length. *)
Definition _make_netmask (arg : mask) : outcome (Z * Z) :=
  obind
    match arg with
    | MaskInt prefixlen =>
        if negb ((0 <=? prefixlen) && (prefixlen <=? _max_prefixlen))
        then _report_invalid_netmask (str_of_int prefixlen)
        else Returned prefixlen
    | MaskStr text =>
        oexcept (_prefix_from_prefix_string text) NetmaskValueError
                (fun _ => _prefix_from_ip_string text)
    end
    (fun prefixlen =>
       let netmask := _ip_int_from_prefix prefixlen in
       obind (_check_int_address netmask)
             (fun _ => Returned (netmask, prefixlen))).

(** [IPv4Address(n)] for an [int]. *)
Definition IPv4Address_of_int (address : Z) : outcome Z :=
  obind (_check_int_address address) (fun _ => Returned address).

(** [IPv4Address(s)] for a [str]. *)
Definition IPv4Address_of_str (addr_str : pystr) : outcome Z :=
  if existsb (fun c => (c =? SLASH)%N) addr_str
  then Raised (Exn AddressValueError (Other (u "Unexpected '/'")))
  else _ip_int_from_string addr_str.

Record IPv4Network := {
  network_address : Z;
  netmask : Z;
  _prefixlen : Z
}.

(** [IPv4Network(address, strict)] for a [str]. *)
Definition IPv4Network_of_str (address : pystr) (strict : bool)
  : outcome IPv4Network :=
  obind (_split_addr_prefix address) (fun '(addr, m) =>
  obind (IPv4Address_of_str addr) (fun network_address =>
  obind (_make_netmask m) (fun '(netmask, prefixlen) =>
  let packed := network_address in
  if negb (Z.land packed netmask =? packed) then
    if strict
    then Raised (Exn ValueError (Other (u "has host bits set")))
    else obind (IPv4Address_of_int (Z.land packed netmask))
               (fun na => Returned (Build_IPv4Network na netmask prefixlen))
  else Returned (Build_IPv4Network network_address netmask prefixlen)))).

(** [address + other] *)
Definition IPv4Address_add (self other : Z) : outcome Z :=
  IPv4Address_of_int (self + other).

Definition _string_from_ip_int (ip_int : Z) : pystr :=
  join DOT (map str_of_int (to_bytes4_big ip_int)).

(** [str(address)] *)
Definition IPv4Address_str (self : Z) : pystr := _string_from_ip_int self.

End Library.

End Ipaddress.

(** ** utils.py *)

Module Utils.

Import Ipaddress.

Definition calculateGatewayIp (subnet : pystr) : outcome pystr :=
  oexcept
    (obind (IPv4Network_of_str subnet false) (fun network =>
     obind (IPv4Address_add (network_address network) 1) (fun gateway =>
     Returned (IPv4Address_str gateway))))
    ValueError
    (fun e => Raised (Exn ValueError (InvalidSubnetFormat (msg e)))).

Section Engine.
Variable G : Engine.

Definition checkContainerStatus (container_name : pystr) : M G pystr :=
  try_except
    (result <- subprocess_run
       [u "docker"; u "ps"; u "-f"; u "name=" ++ container_name;
        u "--format"; u "{{.Status}}"] false ;;
     ret (if truthy (PStr (strip (stdout result)))
          then u "running" else u "stopped"))
    Exception
    (fun _ => ret (u "unknown")).

Definition checkContainerExists (container_name : pystr) : M G pystr :=
  try_except
    (result <- subprocess_run
       [u "docker"; u "ps"; u "-a"; u "-q"; u "-f";
        u "name=" ++ container_name] false ;;
     ret (strip (stdout result)))
    Exception
    (fun e =>
       print [Text (u "Error checking container: "); Error e] ;;
       ret []).

End Engine.

Arguments checkContainerStatus {G} container_name.
Arguments checkContainerExists {G} container_name.

End Utils.

(** ** script.py: the artifact extractor *)

Module Script.

Definition CONTAINER_NAME : pystr := u "honeypot_container".
Definition IMAGE_NAME : pystr := u "honeypot".

(** The dict built by the extractor, in insertion order. *)
Definition artifacts := list (pystr * pystr).

(** [all(d.values())] for string values. *)
Definition all_values (d : artifacts) : bool :=
  forallb (fun kv => truthy (PStr (snd kv))) d.

Section Extractor.
Variable G : Engine.

(** [re.findall(pattern, x)] wants a string. *)
Definition re_findall (x : pyval) : outcome (list pystr) :=
  match x with
  | PStr s => Returned (Re.findall s)
  | _ => Raised (Exn TypeError (Other (u "expected string or bytes-like object")))
  end.

(** The loop over [extracted.items()], which only prints. *)
Fixpoint report (d : artifacts) : M G unit :=
  match d with
  | [] => ret tt
  | (name, content) :: d' =>
      (if truthy (PStr content)
       then print [Text (u "[+] Extracted "); Text name; Text (u ": ");
                   Text (firstn 100 content); Text (u "..."); Text [NEWLINE]]
       else print [Text (u "[!] Missing or empty: "); Text name]) ;;
      report d'
  end.

Definition extractRelevantContent (gpt_response : pyval)
  : M G (option artifacts) :=
  choices <- lift (get gpt_response (u "choices") (PList [])) ;;
  if negb (truthy choices) then
    print [Text (u "No choices found in the GPT response.")] ;;
    ret None
  else
  first <- lift (getitem0 choices) ;;
  message <- lift (get first (u "message") (PDict [])) ;;
  message_content <- lift (get message (u "content") (PStr [])) ;;
  if negb (truthy message_content) then
    print [Text (u "No content found in the GPT response.")] ;;
    ret None
  else
  print [Text (u "Raw GPT Response Content:"); Text [NEWLINE];
         Value message_content] ;;
  code_blocks <- lift (re_findall message_content) ;;
  if (List.length code_blocks <? 3)%nat then
    print [Text (u "[!] Less than 3 code blocks found.")] ;;
    ret None
  else
  b0 <- lift (list_getitem code_blocks 0) ;;
  b1 <- lift (list_getitem code_blocks 1) ;;
  b2 <- lift (list_getitem code_blocks 2) ;;
  let extracted :=
    [(u "Dockerfile", strip b0);
     (u "supervisord.conf", strip b1);
     (u "setup_services.sh", strip b2)] in
  report extracted ;;
  if negb (all_values extracted) then
    print [Text (u "Missing components in GPT response. Aborting.")] ;;
    ret None
  else ret (Some extracted).

End Extractor.

Section Lifecycle.
Variable G : Engine.

Definition createHostOnlyNetwork (name subnet gateway : pystr) : M G unit :=
  try_except
    (subprocess_run
       [u "docker"; u "network"; u "create";
        u "--driver"; u "bridge";
        u "--subnet"; subnet;
        u "--gateway"; gateway;
        u "--internal";
        name] true ;;
     logging INFO [Text (u "Host-only Docker network '"); Text name;
                   Text (u "' created successfully.")])
    CalledProcessError
    (fun e => logging ERROR [Text (u "Error creating network: "); Error e]).

Definition runDockerContainer (ip_address network_name : pystr) : M G unit :=
  try_except
    (existing <- Utils.checkContainerExists CONTAINER_NAME ;;
     (if truthy (PStr existing) then
        logging INFO
          [Text (u "Existing container found. Stopping and removing...")] ;;
        subprocess_run [u "docker"; u "stop"; existing] true ;;
        subprocess_run [u "docker"; u "rm"; existing] true ;;
        ret tt
      else ret tt) ;;
     subprocess_run [u "docker"; u "network"; u "inspect"; network_name]
                    true ;;
     ret tt)
    CalledProcessError
    (fun _ =>
       createHostOnlyNetwork network_name
         (u "192.168.200.0/24") (u "192.168.200.1")) ;;
  try_except
    (logging INFO [Text (u "Running honeypot container with IP ");
                   Text ip_address; Text (u "...")] ;;
     subprocess_run
       [u "docker"; u "run"; u "-d";
        u "--name"; CONTAINER_NAME;
        u "--network"; network_name;
        u "--ip"; ip_address;
        u "-p"; u "2222:22";
        u "-p"; u "8080:80";
        u "-p"; u "2121:21";
        IMAGE_NAME] true ;;
     logging INFO [Text (u "Honeypot container started successfully.")])
    CalledProcessError
    (fun e => logging ERROR [Text (u "Error running container: "); Error e]).

End Lifecycle.

Arguments extractRelevantContent {G} gpt_response.
Arguments createHostOnlyNetwork {G} name subnet gateway.
Arguments runDockerContainer {G} ip_address network_name.

End Script.

(** ** Vocabulary of the statements *)

Module Doc.

Definition FENCE : pystr := [BACKTICK; BACKTICK; BACKTICK].

(** A label is what stands on the line of the opening fence. *)
Definition is_label (l : pystr) : Prop :=
  forallb (fun c => negb (c =? NEWLINE)%N) l = true.

(** A body is closed by the fence written after it: no three backticks in
    a row inside it, and no backtick at its end to run into the fence. *)
Definition is_body (b : pystr) : Prop :=
  Re.has_fence (b ++ [BACKTICK; BACKTICK]) = false.

(** Text between blocks holds no fence of its own. *)
Definition is_prose (p : pystr) : Prop := Re.has_fence p = false.

(** A fenced code block as it is written. *)
Definition block (label body : pystr) : pystr :=
  FENCE ++ label ++ NEWLINE :: body ++ FENCE.

(** The response [r] has a first choice whose message has the text [t] as
    its content. *)
Inductive carries : pyval -> pystr -> Prop :=
| carries_intro d first rest m t :
    lookup (u "choices") d = Some (PList (PDict first :: rest)) ->
    lookup (u "message") first = Some (PDict m) ->
    lookup (u "content") m = Some (PStr t) ->
    carries (PDict d) t.

(** The response of the completion endpoint with the content [t]. *)
Definition completion (t : pystr) : pyval :=
  PDict [(u "choices",
          PList [PDict [(u "message", PDict [(u "content", PStr t)])]])].

(** The three artifacts under their file names. *)
Definition artifact_set (a b c : pystr) : Script.artifacts :=
  [(u "Dockerfile", a); (u "supervisord.conf", b); (u "setup_services.sh", c)].

(** The binding rule in the words of the specification: fewer than three
    blocks, or an empty trimmed block among the first three, gives
    nothing; otherwise the first three, trimmed, in order. *)
Definition bind_first_three (blocks : list pystr) : option Script.artifacts :=
  match blocks with
  | b0 :: b1 :: b2 :: _ =>
      match strip b0, strip b1, strip b2 with
      | _ :: _, _ :: _, _ :: _ =>
          Some (artifact_set (strip b0) (strip b1) (strip b2))
      | _, _, _ => None
      end
  | _ => None
  end.

(** The value an action returns does not depend on the world it runs in. *)
Definition oblivious {G A} (m : M G A) : Prop :=
  forall w w', fst (m w) = fst (m w').

(** An engine that plays back a fixed list of finished processes, one per
    command, and answers with a clean exit once the list is used up. *)
Definition scripted : Engine :=
  {| state := list completed;
     exec := fun st _ =>
               match st with
               | [] => (Returned (Completed 0 []), [])
               | p :: st' => (Returned p, st')
               end |}.

Definition fresh (script : list completed) : world scripted :=
  World scripted script [] [] [].

(** A machine without the [docker] executable: no process starts. *)
Definition missing : Engine :=
  {| state := unit;
     exec := fun st _ =>
               (Raised (Exn FileNotFoundError
                            (Other (u "No such file or directory: 'docker'"))),
                st) |}.

(** The command lines of [utils.py] and [script.py], by name. *)
Definition status_cmd (name : pystr) : list pystr :=
  [u "docker"; u "ps"; u "-f"; u "name=" ++ name;
   u "--format"; u "{{.Status}}"].

Definition exists_cmd (name : pystr) : list pystr :=
  [u "docker"; u "ps"; u "-a"; u "-q"; u "-f"; u "name=" ++ name].

Definition stop_cmd (id : pystr) : list pystr := [u "docker"; u "stop"; id].

Definition rm_cmd (id : pystr) : list pystr := [u "docker"; u "rm"; id].

Definition inspect_cmd (network : pystr) : list pystr :=
  [u "docker"; u "network"; u "inspect"; network].

Definition create_cmd (name subnet gateway : pystr) : list pystr :=
  [u "docker"; u "network"; u "create"; u "--driver"; u "bridge";
   u "--subnet"; subnet; u "--gateway"; gateway; u "--internal"; name].

Definition run_cmd (ip network : pystr) : list pystr :=
  [u "docker"; u "run"; u "-d"; u "--name"; Script.CONTAINER_NAME;
   u "--network"; network; u "--ip"; ip;
   u "-p"; u "2222:22"; u "-p"; u "8080:80"; u "-p"; u "2121:21";
   Script.IMAGE_NAME].

(** The network [runDockerContainer] falls back to. *)
Definition default_create_cmd (network : pystr) : list pystr :=
  create_cmd network (u "192.168.200.0/24") (u "192.168.200.1").

(** Every process the engine is asked for starts and finishes. *)
Definition launches (G : Engine) : Prop :=
  forall g cmd, exists p g', exec G g cmd = (Returned p, g').

(** The answers of the engine to the commands [cmds], issued in a row. *)
Fixpoint answers (G : Engine) (g : state G) (cmds : list (list pystr))
  : list (outcome completed) :=
  match cmds with
  | [] => []
  | cmd :: cmds' =>
      fst (exec G g cmd) :: answers G (snd (exec G g cmd)) cmds'
  end.

(** A reply in the shape the system message asks for, with labels the
    extractor does not look at. *)
Definition sample_dockerfile : pystr := u "FROM ubuntu:14.04" ++ [NEWLINE].
Definition sample_supervisord : pystr :=
  [NEWLINE] ++ u "  [supervisord]" ++ [NEWLINE] ++ u "nodaemon=true  ".
Definition sample_setup : pystr := u "#!/bin/bash" ++ [NEWLINE].

Definition sample_reply : pystr :=
  u "Here you go:" ++ block (u "python") sample_dockerfile
  ++ [NEWLINE] ++ block [] sample_supervisord
  ++ [NEWLINE] ++ block (u "text") sample_setup
  ++ u " Good luck!".

(** A text with three blocks: what is written before them, between them
    and after them, their labels and their bodies. *)
Definition three_blocks (pre l1 b1 m1 l2 b2 m2 l3 b3 post : pystr) : pystr :=
  pre ++ block l1 b1 ++ m1 ++ block l2 b2 ++ m2 ++ block l3 b3 ++ post.

(** The three blocks of [sample_reply] after a sentence that quotes the
    fence itself. *)
Definition stray_fence_reply : pystr :=
  three_blocks (u "Each file is wrapped in ``` marks." ++ [NEWLINE])
               (u "Dockerfile") sample_dockerfile
               [NEWLINE] (u "ini") sample_supervisord
               [NEWLINE] (u "bash") sample_setup [].

(** The three blocks of [sample_reply] after a lone surrogate, as [json]
    decodes the escape of one. *)
Definition surrogate_reply : pystr :=
  three_blocks [55296%N]
               (u "Dockerfile") sample_dockerfile
               [NEWLINE] (u "ini") sample_supervisord
               [NEWLINE] (u "bash") sample_setup [].

(** No block at all, and a lone surrogate. *)
Definition unprintable_reply : pystr := u "No files, sorry." ++ [55296%N].

(** Two blocks only. *)
Definition short_reply : pystr :=
  block (u "Dockerfile") sample_dockerfile
  ++ [NEWLINE] ++ block (u "ini") sample_supervisord ++ [].

(** Three blocks, the second one blank. *)
Definition blank_reply : pystr :=
  block (u "Dockerfile") sample_dockerfile
  ++ [NEWLINE] ++ block (u "ini") [32%N; NEWLINE]
  ++ [NEWLINE] ++ block (u "bash") sample_setup ++ [].

(** What [runDockerContainer] issues before the run command, by what the
    engine answers. [before] is that list of commands, [g] the engine when
    the function is entered. *)
Section Paths.
Variable G : Engine.
Variable g : state G.
Variable network : pystr.
Variable before : list (list pystr).

(** An instance exists, stop and remove succeed. *)
Definition replaces_instance : Prop :=
  forall p0 p1 p2 p3,
    answers G g
      [exists_cmd Script.CONTAINER_NAME; stop_cmd (strip (stdout p0));
       rm_cmd (strip (stdout p0)); inspect_cmd network]
    = [Returned p0; Returned p1; Returned p2; Returned p3] ->
    strip (stdout p0) <> [] ->
    returncode p1 = 0%Z -> returncode p2 = 0%Z ->
    before =
    [exists_cmd Script.CONTAINER_NAME; stop_cmd (strip (stdout p0));
     rm_cmd (strip (stdout p0)); inspect_cmd network]
    ++ (if (returncode p3 =? 0)%Z then [] else [default_create_cmd network]).

(** No instance exists. *)
Definition nothing_to_replace : Prop :=
  forall p0 p3,
    answers G g [exists_cmd Script.CONTAINER_NAME; inspect_cmd network]
    = [Returned p0; Returned p3] ->
    strip (stdout p0) = [] ->
    before =
    [exists_cmd Script.CONTAINER_NAME; inspect_cmd network]
    ++ (if (returncode p3 =? 0)%Z then [] else [default_create_cmd network]).

(** An instance exists and stop fails. *)
Definition stop_fails : Prop :=
  forall p0 p1,
    answers G g
      [exists_cmd Script.CONTAINER_NAME; stop_cmd (strip (stdout p0))]
    = [Returned p0; Returned p1] ->
    strip (stdout p0) <> [] ->
    returncode p1 <> 0%Z ->
    exists rest,
      before =
      [exists_cmd Script.CONTAINER_NAME; stop_cmd (strip (stdout p0))] ++ rest
      /\ ~ In (rm_cmd (strip (stdout p0))) rest
      /\ ~ In (inspect_cmd network) rest.

(** An instance exists, stop succeeds and remove fails. *)
Definition remove_fails : Prop :=
  forall p0 p1 p2,
    answers G g
      [exists_cmd Script.CONTAINER_NAME; stop_cmd (strip (stdout p0));
       rm_cmd (strip (stdout p0))]
    = [Returned p0; Returned p1; Returned p2] ->
    strip (stdout p0) <> [] ->
    returncode p1 = 0%Z -> returncode p2 <> 0%Z ->
    exists rest,
      before =
      [exists_cmd Script.CONTAINER_NAME; stop_cmd (strip (stdout p0));
       rm_cmd (strip (stdout p0))] ++ rest
      /\ ~ In (inspect_cmd network) rest.

End Paths.

(** Whatever [o] raises is an instance of [c]. *)
Definition raises_only {A} (o : outcome A) (c : exn_class) : Prop :=
  forall e, o = Raised e -> subclass (cls e) c = true.

(** The decimal text of the octet [b] has no dot in it and reads back as
    [b]. *)
Definition octet_text_ok (b : Z) : bool :=
  let t := Ipaddress.str_of_int b in
  negb (existsb (fun c => (c =? DOT)%N) t)
  && match Ipaddress._parse_octet t with
     | Returned b' => (b' =? b)%Z
     | Raised _ => false
     end.

(** Scripts for [scripted]: an instance "abc123" that is stopped and
    removed while the network is missing; one that refuses to stop; no
    instance, and a network that can be neither found nor created. *)
Definition replace_script : list completed :=
  [Completed 0 (u "abc123" ++ [NEWLINE]); Completed 0 []; Completed 0 [];
   Completed 1 []; Completed 0 []; Completed 0 []].

Definition stop_refused_script : list completed :=
  [Completed 0 (u "abc123" ++ [NEWLINE]); Completed 1 []].

Definition no_network_script : list completed :=
  [Completed 0 []; Completed 1 []; Completed 1 []].

End Doc.
Import Doc.

(** ** script.py: the other engine wrappers and the prompt check *)

Module Cli.

Import Script.

Section Engine.
Variable G : Engine.

Definition validatePrompt (prompt : pystr) : M G bool :=
  if negb (truthy (PStr (strip prompt))) then
    print [Text (u "Prompt cannot be empty. Please try again.")] ;;
    ret false
  else ret true.

Definition buildDockerImage (output_dir : pystr) : M G unit :=
  try_except
    (logging INFO [Text (u "Building Docker image...")] ;;
     subprocess_run [u "docker"; u "build"; u "-t"; IMAGE_NAME; output_dir]
                    true ;;
     logging INFO [Text (u "Docker image built successfully.")])
    CalledProcessError
    (fun e => logging ERROR [Text (u "Error building Docker image: ");
                             Error e]).

Definition listNetworks : M G unit :=
  subprocess_run [u "docker"; u "network"; u "ls"] false ;;
  ret tt.

Definition stopContainer : M G unit :=
  cid <- Utils.checkContainerExists CONTAINER_NAME ;;
  if truthy (PStr cid) then
    subprocess_run [u "docker"; u "stop"; cid] false ;;
    print [Text (u "[+] Container stopped.")]
  else print [Text (u "[!] Container not running.")].

Definition removeContainer : M G unit :=
  cid <- Utils.checkContainerExists CONTAINER_NAME ;;
  if truthy (PStr cid) then
    subprocess_run [u "docker"; u "rm"; cid] false ;;
    print [Text (u "[+] Container removed.")]
  else print [Text (u "[!] Container not found.")].

Definition removeImage : M G unit :=
  subprocess_run [u "docker"; u "rmi"; u "-f"; IMAGE_NAME] false ;;
  print [Text (u "[+] Image removed.")].

End Engine.

Arguments validatePrompt {G} prompt.
Arguments buildDockerImage {G} output_dir.
Arguments listNetworks {G}.
Arguments stopContainer {G}.
Arguments removeContainer {G}.
Arguments removeImage {G}.

End Cli.

(** ** GUI.py: its own existence query, without a handler *)

Module Gui.

Section Engine.
Variable G : Engine.

Definition check_container_exists (container_name : pystr) : M G pystr :=
  result <- subprocess_run
    [u "docker"; u "ps"; u "-a"; u "-q"; u "-f";
     u "name=" ++ container_name] false ;;
  ret (strip (stdout result)).

End Engine.

Arguments check_container_exists {G} container_name.

End Gui.

(** ** script.py: reading the prompt and the system message

    [input()] hands out the lines of standard input one by one, without
    their newline, and raises [EOFError] when none is left. *)

Module Console.

Record console := Console {
  stdin : list pystr;       (* lines not read yet *)
  screen : list line        (* what has been printed, oldest first *)
}.

Inductive answer (A : Type) :=
| Got (a : A)
| EOFError.
Arguments Got {A} a.
Arguments EOFError {A}.

(** [t.upper() == "END"]. In the Unicode case mapping only the ASCII
    letters map to E, N and D, and no character maps to two of them. *)
Definition upper_is_END (t : pystr) : bool :=
  match t with
  | [a; b; c] =>
      (((a =? 69) || (a =? 101)) && ((b =? 78) || (b =? 110))
       && ((c =? 68) || (c =? 100)))%N
  | _ => false
  end.

(** The loop [while True: line = input(); if ...: break;
    lines.append(line)] on the lines still to be read: the lines gathered,
    or [EOFError], and what is left of the input. *)
Fixpoint read_until_END (pending lines : list pystr)
  : answer (list pystr) * list pystr :=
  match pending with
  | [] => (EOFError, [])
  | line :: rest =>
      if upper_is_END (strip line) then (Got lines, rest)
      else read_until_END rest (lines ++ [line])
  end.

Definition PROMPT_BANNER : line :=
  [Text ([NEWLINE]
         ++ u "Please describe the IT scenario or environment you'd like to simulate."
         ++ [NEWLINE]
         ++ u "When done, type 'END' on a new line:"
         ++ [NEWLINE])].

Definition SYSTEM_BANNER : line :=
  [Text (u "Enter your system message (type 'END' on a new line to finish):")].

Definition getMultilineInput (c : console) : answer pystr * console :=
  let shown := screen c ++ [PROMPT_BANNER] in
  match read_until_END (stdin c) [] with
  | (Got lines, rest) =>
      (Got (Ipaddress.join NEWLINE lines), Console rest shown)
  | (EOFError, rest) => (EOFError, Console rest shown)
  end.

Definition getMultilineInputForSystemMessage (existing_message : pystr)
  (c : console) : answer pystr * console :=
  let shown := screen c ++ [SYSTEM_BANNER] in
  let lines := Ipaddress.split NEWLINE existing_message in
  match read_until_END (stdin c) lines with
  | (Got lines, rest) =>
      (Got (Ipaddress.join NEWLINE lines), Console rest shown)
  | (EOFError, rest) => (EOFError, Console rest shown)
  end.

End Console.

(** ** Vocabulary of the further statements *)

Module Props.

(** An action that only prints: it starts no process, leaves the engine
    and the log as they are, and adds to what was printed. *)
Definition only_prints {G A} (m : M G A) : Prop :=
  forall w,
    engine (snd (m w)) = engine w
    /\ calls (snd (m w)) = calls w
    /\ logged (snd (m w)) = logged w
    /\ exists more, printed (snd (m w)) = printed w ++ more.

(** A text that is trimmed already, and not empty. *)
Definition trimmed (v : pystr) : Prop :=
  v <> [] /\ strip v = v
  /\ isspace (hd 0%N v) = false /\ isspace (last v 0%N) = false.

(** A line that ends the input: "END" in any case, with any white space
    around it. *)
Definition ends_input (l : pystr) : bool := Console.upper_is_END (strip l).

(** A line of white space only. *)
Definition blank (l : pystr) : bool := forallb isspace l.

(** The text of an address and of a mask, with the slash between them. *)
Definition with_mask (addr m : pystr) : pystr := addr ++ SLASH :: m.

(** The netmask and the hostmask of a prefix length, in dotted decimal. *)
Definition netmask_text (p : Z) : pystr :=
  Ipaddress._string_from_ip_int (Ipaddress._ip_int_from_prefix p).

Definition hostmask_text (p : Z) : pystr :=
  Ipaddress._string_from_ip_int
    (Z.lxor (Ipaddress._ip_int_from_prefix p) Ipaddress._ALL_ONES).

Definition is_prefix_answer (o : outcome (Z * Z)) (p : Z) : bool :=
  match o with
  | Returned (m, q) => ((m =? Ipaddress._ip_int_from_prefix p) && (q =? p))%Z
  | Raised _ => false
  end.

(** The three ways to write the prefix length [p] after the slash are
    read alike, and none of them holds a slash; the hostmask only for
    the lengths 1 to 31. *)
Definition mask_texts_ok (p : Z) : bool :=
  let slash_free t := negb (existsb (fun c => (c =? SLASH)%N) t) in
  is_prefix_answer
    (Ipaddress._make_netmask (Ipaddress.MaskStr (Ipaddress.str_of_int p))) p
  && is_prefix_answer
       (Ipaddress._make_netmask (Ipaddress.MaskStr (netmask_text p))) p
  && ((p =? 0)%Z || (p =? 32)%Z
      || is_prefix_answer
           (Ipaddress._make_netmask (Ipaddress.MaskStr (hostmask_text p))) p)
  && slash_free (Ipaddress.str_of_int p)
  && slash_free (netmask_text p)
  && slash_free (hostmask_text p).

(** An action whose every process is a [docker] command line. *)
Definition docker_only {G A} (m : M G A) : Prop :=
  forall w, exists more,
    calls (snd (m w)) = calls w ++ more
    /\ Forall (fun cmd => hd [] cmd = u "docker") more.

(** The command line of [buildDockerImage]. *)
Definition build_cmd (output_dir : pystr) : list pystr :=
  [u "docker"; u "build"; u "-t"; Script.IMAGE_NAME; output_dir].

(** A reply in the format DEFAULT_SYSTEM_MESSAGE prescribes: the three
    files in their order, each in a block of its own with the label asked
    for, the closing fence on a line of its own and an empty line between
    the blocks. *)
Definition render (dockerfile supervisord setup : pystr) : pystr :=
  block (u "Dockerfile") (dockerfile ++ [NEWLINE])
  ++ [NEWLINE; NEWLINE] ++ block (u "ini") (supervisord ++ [NEWLINE])
  ++ [NEWLINE; NEWLINE] ++ block (u "bash") (setup ++ [NEWLINE]) ++ [].

(** What the extractor makes of [sample_reply]. *)
Definition sample_artifacts : list (pystr * pystr) :=
  artifact_set (u "FROM ubuntu:14.04")
               (u "[supervisord]" ++ [NEWLINE] ++ u "nodaemon=true")
               (u "#!/bin/bash").

(** Sample inputs of the readers: closed by a line that reads END, blank
    lines only, and never closed. *)
Definition typed_console : Console.console :=
  Console.Console
    [u "an ssh server"; u "  with weak passwords"; u " end "; u "ls"] [].

Definition blank_console : Console.console :=
  Console.Console [u "   "; []; u "END"] [].

Definition open_console : Console.console :=
  Console.Console [u "an ssh server"; u "ending"] [].

End Props.
Import Props.

(** ** The scan of the regular expression *)

Section ReFacts.
Import Re.

Lemma fence_FENCE t : fence (FENCE ++ t) = Some t.
Proof. reflexivity. Qed.

Lemma fence_prefix x y :
  (3 <= List.length x)%nat -> fence (x ++ y) = fence x \/ fence x <> None.
Proof.
  destruct x as [|a [|b [|c x]]]; simpl; try lia.
  intros _. destruct ((a =? BACKTICK) && (b =? BACKTICK) && (c =? BACKTICK))%N.
  - right; discriminate.
  - now left.
Qed.

Lemma fence_None_app x y :
  (3 <= List.length x)%nat -> fence x = None -> fence (x ++ y) = None.
Proof.
  intros Hlen Hx. destruct (fence_prefix x y Hlen) as [E|E]; congruence.
Qed.

Lemma label_line_app l t :
  is_label l -> label_line (l ++ NEWLINE :: t) = Some t.
Proof.
  unfold is_label. induction l as [|c l IH]; simpl; intros H.
  - reflexivity.
  - apply andb_prop in H as [Hc Hl].
    destruct (c =? NEWLINE)%N; [discriminate|auto].
Qed.

Lemma has_fence_eq c s :
  has_fence (c :: s) =
  match fence (c :: s) with Some _ => true | None => has_fence s end.
Proof. reflexivity. Qed.

Lemma lazy_body_eq c s :
  lazy_body (c :: s) =
  match fence (c :: s) with
  | Some rest => Some ([], rest)
  | None =>
      match lazy_body s with
      | Some (body, rest) => Some (c :: body, rest)
      | None => None
      end
  end.
Proof. reflexivity. Qed.

Lemma has_fence_cons c s :
  has_fence (c :: s) = false -> fence (c :: s) = None /\ has_fence s = false.
Proof.
  rewrite has_fence_eq. destruct (fence (c :: s)); [discriminate|auto].
Qed.

Lemma lazy_body_app b t :
  is_body b -> lazy_body (b ++ FENCE ++ t) = Some (b, t).
Proof.
  unfold is_body. induction b as [|c b IH]; intros H.
  - reflexivity.
  - apply has_fence_cons in H as [Hf Hb].
    change ((c :: b) ++ FENCE ++ t) with (c :: b ++ FENCE ++ t).
    assert (Hnone : fence (c :: b ++ FENCE ++ t) = None).
    { change (c :: b ++ FENCE ++ t)
        with (c :: b ++ ([BACKTICK; BACKTICK] ++ BACKTICK :: t)).
      rewrite app_assoc.
      change (c :: (b ++ [BACKTICK; BACKTICK]) ++ BACKTICK :: t)
        with ((c :: b ++ [BACKTICK; BACKTICK]) ++ BACKTICK :: t).
      apply fence_None_app; [|exact Hf].
      simpl. rewrite length_app. simpl. lia. }
    rewrite lazy_body_eq, Hnone, (IH Hb). reflexivity.
Qed.

Lemma match_here_block l b t :
  is_label l -> is_body b ->
  match_here (FENCE ++ l ++ NEWLINE :: b ++ FENCE ++ t) = Some (b, t).
Proof.
  intros Hl Hb. unfold match_here. rewrite fence_FENCE.
  rewrite (label_line_app _ Hl). apply lazy_body_app, Hb.
Qed.

Lemma fence_shorter s r : fence s = Some r -> List.length s = (3 + List.length r)%nat.
Proof.
  destruct s as [|a [|b [|c x]]]; simpl; try discriminate.
  destruct ((a =? BACKTICK) && (b =? BACKTICK) && (c =? BACKTICK))%N;
    [|discriminate].
  intros [= <-]. reflexivity.
Qed.

Lemma label_line_shorter s r :
  label_line s = Some r -> (List.length r < List.length s)%nat.
Proof.
  revert r. induction s as [|c s IH]; simpl; intros r; [discriminate|].
  destruct (c =? NEWLINE)%N.
  - intros [= <-]. lia.
  - intros H. specialize (IH _ H). lia.
Qed.

Lemma lazy_body_shorter s b r :
  lazy_body s = Some (b, r) -> (List.length r < List.length s)%nat.
Proof.
  revert b r. induction s as [|c s IH]; intros b r.
  - simpl. discriminate.
  - rewrite lazy_body_eq. destruct (fence (c :: s)) as [rest|] eqn:Hf.
    + intros [= <- <-]. apply fence_shorter in Hf. lia.
    + destruct (lazy_body s) as [[b' r']|]; [|discriminate].
      intros [= <- <-]. specialize (IH _ _ eq_refl). simpl. lia.
Qed.

Lemma match_here_shorter s b r :
  match_here s = Some (b, r) -> (List.length r < List.length s)%nat.
Proof.
  unfold match_here. destruct (fence s) as [s1|] eqn:Hf; [|discriminate].
  destruct (label_line s1) as [s2|] eqn:Hl; [|discriminate].
  intros Hb. apply fence_shorter in Hf. apply label_line_shorter in Hl.
  apply lazy_body_shorter in Hb. lia.
Qed.

(** The scan never runs out of fuel: any fuel from the length of the text
    on gives the same list. *)
Lemma scan_fuel n m s :
  (List.length s <= n)%nat -> (List.length s <= m)%nat -> scan n s = scan m s.
Proof.
  revert m s. induction n as [|n IH]; intros m s Hn Hm.
  - destruct s; [|simpl in Hn; lia]. destruct m; reflexivity.
  - destruct m as [|m].
    + destruct s; [reflexivity|simpl in Hm; lia].
    + destruct s as [|c s]; [reflexivity|]. simpl scan.
      destruct (match_here (c :: s)) as [[b r]|] eqn:Hm'.
      * apply match_here_shorter in Hm'. simpl in *.
        f_equal. apply IH; lia.
      * simpl in *. apply IH; lia.
Qed.

Lemma findall_nil : findall [] = [].
Proof. reflexivity. Qed.

Lemma findall_cons c s :
  findall (c :: s) =
  match match_here (c :: s) with
  | Some (b, r) => b :: findall r
  | None => findall s
  end.
Proof.
  unfold findall. simpl scan.
  destruct (match_here (c :: s)) as [[b r]|] eqn:Hm.
  - apply match_here_shorter in Hm. simpl in Hm.
    f_equal. apply scan_fuel; lia.
  - apply scan_fuel; simpl; lia.
Qed.

Lemma match_here_None s : fence s = None -> match_here s = None.
Proof. unfold match_here. now intros ->. Qed.

Lemma is_label_backtick l : is_label l -> is_label (BACKTICK :: l).
Proof. unfold is_label. simpl. auto. Qed.

(** Prose, then a block: the scan finds the body of the block next and
    goes on after its closing fence. Backticks at the end of the prose
    run into the opening fence and end up in the label. *)
Lemma findall_block_flat pre l b t :
  is_prose pre -> is_label l -> is_body b ->
  findall (pre ++ FENCE ++ l ++ NEWLINE :: b ++ FENCE ++ t) = b :: findall t.
Proof.
  revert l. induction pre as [|c pre IH]; intros l Hp Hl Hb.
  - change ([] ++ FENCE ++ l ++ NEWLINE :: b ++ FENCE ++ t)
      with (BACKTICK :: [BACKTICK; BACKTICK] ++ l ++ NEWLINE :: b ++ FENCE ++ t).
    rewrite findall_cons.
    change (BACKTICK :: [BACKTICK; BACKTICK] ++ l ++ NEWLINE :: b ++ FENCE ++ t)
      with (FENCE ++ l ++ NEWLINE :: b ++ FENCE ++ t).
    now rewrite match_here_block.
  - apply has_fence_cons in Hp as [Hf Hp].
    change ((c :: pre) ++ FENCE ++ l ++ NEWLINE :: b ++ FENCE ++ t)
      with (c :: pre ++ FENCE ++ l ++ NEWLINE :: b ++ FENCE ++ t).
    rewrite findall_cons.
    destruct (fence (c :: pre ++ FENCE ++ l ++ NEWLINE :: b ++ FENCE ++ t))
      as [r|] eqn:Hhead.
    + (* the prose ends in one or two backticks *)
      destruct pre as [|x [|y pre]].
      * simpl in Hhead. destruct (N.eqb_spec c BACKTICK) as [->|]; [|discriminate].
        change (BACKTICK :: [] ++ FENCE ++ l ++ NEWLINE :: b ++ FENCE ++ t)
          with (FENCE ++ (BACKTICK :: l) ++ NEWLINE :: b ++ FENCE ++ t).
        rewrite match_here_block; auto using is_label_backtick.
      * simpl in Hhead.
        destruct (N.eqb_spec c BACKTICK) as [->|]; [|discriminate].
        destruct (N.eqb_spec x BACKTICK) as [->|]; [|discriminate].
        change (BACKTICK :: [BACKTICK] ++ FENCE ++ l ++ NEWLINE :: b ++ FENCE ++ t)
          with (FENCE ++ (BACKTICK :: BACKTICK :: l) ++ NEWLINE :: b ++ FENCE ++ t).
        rewrite match_here_block; auto using is_label_backtick.
      * simpl in Hhead, Hf.
        destruct ((c =? BACKTICK) && (x =? BACKTICK) && (y =? BACKTICK))%N;
          discriminate.
    + rewrite match_here_None by exact Hhead. apply IH; auto.
Qed.

Lemma block_flat l b t :
  block l b ++ t = FENCE ++ l ++ NEWLINE :: b ++ FENCE ++ t.
Proof.
  unfold block. rewrite <- !app_assoc. f_equal. f_equal.
  simpl. f_equal. now rewrite <- app_assoc.
Qed.

Lemma findall_block pre l b t :
  is_prose pre -> is_label l -> is_body b ->
  findall (pre ++ block l b ++ t) = b :: findall t.
Proof. rewrite block_flat. apply findall_block_flat. Qed.

End ReFacts.

(** ** Trimming *)

Section StripFacts.

Lemma lstrip_split s :
  exists p, s = p ++ lstrip s /\ forallb isspace p = true.
Proof.
  induction s as [|c s (p & Hs & Hp)]; [now exists []|].
  cbn [lstrip]. destruct (isspace c) eqn:Hc.
  - exists (c :: p). cbn [app forallb]. rewrite Hc, Hp. now rewrite <- Hs.
  - now exists [].
Qed.

Lemma lstrip_head s c t : lstrip s = c :: t -> isspace c = false.
Proof.
  induction s as [|d s IH]; cbn [lstrip]; [discriminate|].
  destruct (isspace d) eqn:Hd; [exact IH|]. now intros [= <- <-].
Qed.

Lemma lstrip_fixed (c : N) (t : list N) :
  isspace c = false -> lstrip (c :: t) = c :: t.
Proof. intros H. cbn [lstrip]. now rewrite H. Qed.

Lemma lstrip_nil_iff s : lstrip s = [] <-> forallb isspace s = true.
Proof.
  induction s as [|c s IH]; cbn [lstrip forallb]; [easy|].
  destruct (isspace c); cbn [andb]; [exact IH|easy].
Qed.

Lemma forallb_rev A (f : A -> bool) l : forallb f (rev l) = forallb f l.
Proof.
  induction l as [|x l IH]; [reflexivity|].
  cbn [rev forallb]. rewrite forallb_app, IH. cbn [forallb].
  now rewrite andb_true_r, andb_comm.
Qed.

Lemma rstrip_split s :
  exists q, s = rstrip s ++ q /\ forallb isspace q = true.
Proof.
  unfold rstrip. destruct (lstrip_split (rev s)) as (p & Hs & Hp).
  exists (rev p). split.
  - rewrite <- rev_app_distr, <- Hs. now rewrite rev_involutive.
  - now rewrite forallb_rev.
Qed.

(** What [strip] takes away is white space, on both sides. *)
Lemma strip_split s :
  exists p q,
    s = p ++ strip s ++ q
    /\ forallb isspace p = true /\ forallb isspace q = true.
Proof.
  destruct (lstrip_split s) as (p & Hs & Hp).
  destruct (rstrip_split (lstrip s)) as (q & Hl & Hq).
  exists p, q. unfold strip. now rewrite <- Hl.
Qed.

Lemma strip_nil_iff s : strip s = [] <-> forallb isspace s = true.
Proof.
  split.
  - intros H. destruct (strip_split s) as (p & q & Hs & Hp & Hq).
    rewrite Hs, H, !forallb_app, Hp, Hq. reflexivity.
  - intros H. unfold strip. apply lstrip_nil_iff in H. now rewrite H.
Qed.

Lemma strip_head s c t : strip s = c :: t -> isspace c = false.
Proof.
  unfold strip, rstrip. intros H.
  destruct (lstrip s) as [|d x] eqn:Hx; [discriminate|].
  pose proof (lstrip_head _ Hx) as Hd.
  destruct (lstrip_split (rev (d :: x))) as (p & Hs & Hp).
  apply (f_equal (@rev _)) in Hs. rewrite rev_involutive, rev_app_distr in Hs.
  rewrite H in Hs. cbn [app] in Hs. injection Hs as <- _. exact Hd.
Qed.

Lemma strip_last s t c : strip s = t ++ [c] -> isspace c = false.
Proof.
  unfold strip, rstrip. intros H.
  apply (f_equal (@rev _)) in H. rewrite rev_involutive, rev_app_distr in H.
  cbn [rev app] in H. eapply lstrip_head. exact H.
Qed.

Lemma strip_fixed (v : pystr) :
  isspace (hd 0%N v) = false -> isspace (last v 0%N) = false -> strip v = v.
Proof.
  intros Hh Hl. destruct v as [|c v]; [reflexivity|].
  unfold strip, rstrip. cbn [hd] in Hh. cbn [lstrip]. rewrite Hh.
  assert (Hr : exists y, rev (c :: v) = last (c :: v) 0%N :: y).
  { destruct (rev (c :: v)) as [|d y] eqn:Hr;
      apply (f_equal (@rev _)) in Hr; rewrite rev_involutive in Hr.
    - discriminate.
    - exists y. rewrite Hr. cbn [rev]. now rewrite last_last. }
  destruct Hr as [y Hr]. rewrite Hr. cbn [lstrip]. rewrite Hl, <- Hr.
  apply rev_involutive.
Qed.

(** A stripped text that is not empty is trimmed. *)
Lemma strip_trimmed s : strip s <> [] -> trimmed (strip s).
Proof.
  intros Hne.
  assert (Hh : isspace (hd 0%N (strip s)) = false).
  { destruct (strip s) as [|c t] eqn:E; [congruence|].
    cbn [hd]. eapply strip_head. exact E. }
  assert (Hl : isspace (last (strip s) 0%N) = false).
  { destruct (exists_last Hne) as (t & c & E). rewrite E, last_last.
    eapply strip_last. exact E. }
  repeat split; auto using strip_fixed.
Qed.

End StripFacts.

(** ** What the scan captures *)

Section CaptureFacts.
Import Re.

Lemma fence_inv s r : fence s = Some r -> s = FENCE ++ r.
Proof.
  destruct s as [|a [|b [|c x]]]; cbn [fence]; try discriminate.
  destruct (N.eqb_spec a BACKTICK) as [->|]; [|discriminate].
  destruct (N.eqb_spec b BACKTICK) as [->|]; [|discriminate].
  destruct (N.eqb_spec c BACKTICK) as [->|]; [|discriminate].
  now intros [= <-].
Qed.

Lemma fence_Some_app x y r : fence x = Some r -> fence (x ++ y) = Some (r ++ y).
Proof. intros H. apply fence_inv in H as ->. reflexivity. Qed.

Lemma label_line_inv s r :
  label_line s = Some r -> exists l, s = l ++ NEWLINE :: r /\ is_label l.
Proof.
  revert r. induction s as [|c s IH]; intros r; cbn [label_line];
    [discriminate|].
  destruct (N.eqb_spec c NEWLINE) as [->|Hc].
  - intros [= <-]. now exists [].
  - intros H. destruct (IH _ H) as (l & -> & Hl). exists (c :: l).
    split; [reflexivity|]. unfold is_label in *. cbn [forallb].
    rewrite Hl. apply N.eqb_neq in Hc. now rewrite Hc.
Qed.

Lemma lazy_body_inv s b r :
  lazy_body s = Some (b, r) -> s = b ++ FENCE ++ r /\ is_body b.
Proof.
  revert b r. induction s as [|c s IH]; intros b r.
  - cbn. discriminate.
  - rewrite lazy_body_eq. destruct (fence (c :: s)) as [rest|] eqn:Hf.
    + intros [= <- <-]. apply fence_inv in Hf. now split.
    + destruct (lazy_body s) as [[b' r']|] eqn:Hb; [|discriminate].
      intros [= <- <-]. destruct (IH _ _ eq_refl) as [Hs Hbody].
      split; [now rewrite Hs|].
      unfold is_body in *. rewrite <- app_comm_cons, has_fence_eq.
      destruct (fence (c :: b' ++ [BACKTICK; BACKTICK])) as [x|] eqn:Hx;
        [|exact Hbody].
      apply fence_Some_app with (y := BACKTICK :: r') in Hx.
      rewrite <- app_comm_cons, <- app_assoc in Hx. cbn [app] in Hx.
      rewrite Hs in Hf. unfold FENCE in Hf. cbn [app] in Hf. congruence.
Qed.

(** A match is a fenced block at the head of the text. *)
Lemma match_here_inv s b r :
  match_here s = Some (b, r) ->
  exists l, s = block l b ++ r /\ is_label l /\ is_body b.
Proof.
  unfold match_here. destruct (fence s) as [s1|] eqn:Hf; [|discriminate].
  destruct (label_line s1) as [s2|] eqn:Hl; [|discriminate].
  intros Hb. apply fence_inv in Hf as ->.
  apply label_line_inv in Hl as (l & -> & Hl).
  apply lazy_body_inv in Hb as [-> Hb].
  exists l. repeat split; try assumption. now rewrite block_flat.
Qed.

(** Induction along the scan. *)
Lemma findall_rect (P : pystr -> list pystr -> Prop) :
  P [] [] ->
  (forall c s b r,
     match_here (c :: s) = Some (b, r) ->
     P r (findall r) -> P (c :: s) (b :: findall r)) ->
  (forall c s,
     match_here (c :: s) = None ->
     P s (findall s) -> P (c :: s) (findall s)) ->
  forall s, P s (findall s).
Proof.
  intros Hnil Hhit Hmiss s.
  remember (List.length s) as n eqn:Hn.
  revert s Hn. induction n as [n IH] using lt_wf_ind. intros s Hn.
  destruct s as [|c s]; [exact Hnil|].
  rewrite findall_cons. destruct (match_here (c :: s)) as [[b r]|] eqn:Hm.
  - apply Hhit; [exact Hm|]. apply (IH (List.length r)); [|reflexivity].
    apply match_here_shorter in Hm. lia.
  - apply Hmiss; [exact Hm|]. apply (IH (List.length s)); [|reflexivity].
    subst n. simpl. lia.
Qed.

(** Every captured body is the body of a fenced block that stands in the
    text. *)
Lemma findall_sound s :
  Forall (fun b => exists p l q,
            is_label l /\ is_body b /\ s = p ++ block l b ++ q)
         (findall s).
Proof.
  pattern s, (findall s). apply findall_rect; clear s.
  - constructor.
  - intros c s b r Hm IH. apply match_here_inv in Hm as (l & Hs & Hl & Hb).
    constructor.
    + exists [], l, r. auto.
    + eapply Forall_impl; [|exact IH]. cbn beta.
      intros b' (p & l' & q & Hl' & Hb' & Hr).
      exists (block l b ++ p), l', q. repeat split; try assumption.
      rewrite Hs, Hr. now rewrite <- app_assoc.
  - intros c s _ IH. eapply Forall_impl; [|exact IH]. cbn beta.
    intros b (p & l & q & Hl & Hb & Hs).
    exists (c :: p), l, q. repeat split; try assumption. now rewrite Hs.
Qed.

(** The matches do not overlap: each takes its body and at least seven
    more characters of the text. *)
Lemma findall_lengths s :
  (list_sum (map (fun b => 7 + List.length b) (findall s))
   <= List.length s)%nat.
Proof.
  pattern s, (findall s). apply findall_rect; clear s.
  - simpl. lia.
  - intros c s b r Hm IH. apply match_here_inv in Hm as (l & Hs & _ & _).
    rewrite Hs. unfold block, FENCE. cbn [map].
    rewrite !length_app. cbn [List.length]. rewrite !length_app.
    unfold list_sum in *. cbn [fold_right List.length]. lia.
  - intros c s _ IH. cbn [List.length]. lia.
Qed.

Lemma has_fence_app_r p s : has_fence (p ++ s) = false -> has_fence s = false.
Proof.
  induction p as [|c p IH]; [easy|]. cbn [app]. intros H.
  apply has_fence_cons in H as [_ H]. auto.
Qed.

Lemma has_fence_app_l s q : has_fence (s ++ q) = false -> has_fence s = false.
Proof.
  induction s as [|c s IH]; [reflexivity|]. cbn [app]. intros H.
  apply has_fence_cons in H as [Hf H]. rewrite has_fence_eq.
  destruct (fence (c :: s)) as [r|] eqn:Hc; [|auto].
  apply fence_Some_app with (y := q) in Hc. cbn [app] in Hc. congruence.
Qed.

Lemma strip_no_fence b : is_body b -> has_fence (strip b) = false.
Proof.
  unfold is_body. intros H. apply has_fence_app_l in H.
  destruct (strip_split b) as (p & q & Hb & _ & _). rewrite Hb in H.
  apply has_fence_app_r in H. now apply has_fence_app_l in H.
Qed.

Lemma strip_length s : (List.length (strip s) <= List.length s)%nat.
Proof.
  destruct (strip_split s) as (p & q & Hs & _ & _).
  rewrite Hs at 2. rewrite !length_app. lia.
Qed.

End CaptureFacts.

(** ** Standard output *)

Section PrintFacts.
Variable G : Engine.

Lemma find_surrogate (s : pystr) :
  find surrogate s = None <-> encodable s = true.
Proof.
  unfold encodable. induction s as [|c s IH]; cbn [find existsb].
  - split; reflexivity.
  - destruct (surrogate c); cbn [orb negb]; [split; discriminate|exact IH].
Qed.

Lemma find_surrogate_app (a b : pystr) :
  find surrogate a = None -> find surrogate (a ++ b) = find surrogate b.
Proof.
  induction a as [|c a IH]; cbn [find app]; [reflexivity|].
  destruct (surrogate c); [discriminate|exact IH].
Qed.

Lemma find_surrogate_In (s : pystr) c :
  find surrogate s = Some c -> surrogate c = true /\ In c s.
Proof. intros H. apply find_some in H. tauto. Qed.

Lemma encodable_app (a b : pystr) :
  encodable (a ++ b) = encodable a && encodable b.
Proof. unfold encodable. rewrite existsb_app. apply negb_orb. Qed.

Lemma encodable_cons c (s : pystr) :
  encodable (c :: s) = negb (surrogate c) && encodable s.
Proof. unfold encodable. cbn [existsb]. apply negb_orb. Qed.

Lemma encodable_part (p x q : pystr) :
  encodable (p ++ x ++ q) = true -> encodable x = true.
Proof. rewrite !encodable_app, !andb_true_iff. tauto. Qed.

Lemma encodable_firstn n (s : pystr) :
  encodable s = true -> encodable (firstn n s) = true.
Proof.
  intros H. rewrite <- (firstn_skipn n s), encodable_app in H.
  now apply andb_prop in H as [H _].
Qed.

Lemma encodable_strip (s : pystr) :
  encodable s = true -> encodable (strip s) = true.
Proof.
  intros H. destruct (strip_split s) as (p & q & Hs & _).
  rewrite Hs in H. exact (encodable_part _ _ _ H).
Qed.

Lemma encodable_block (l b : pystr) :
  encodable (block l b) = true -> encodable b = true.
Proof.
  unfold block.
  change (NEWLINE :: b ++ FENCE) with ([NEWLINE] ++ b ++ FENCE).
  rewrite !encodable_app, !andb_true_iff. tauto.
Qed.

Lemma encodable_findall (t : pystr) :
  encodable t = true -> Forall (fun b => encodable b = true) (Re.findall t).
Proof.
  intros Ht. eapply Forall_impl; [|apply findall_sound]. cbn beta.
  intros b (p & l & q & _ & _ & E). subst t.
  apply encodable_part in Ht. now apply encodable_block in Ht.
Qed.

Lemma print_ok (w : world G) l :
  encodable (line_text l) = true ->
  print l w
  = (Returned tt,
     World G (engine w) (calls w) (printed w ++ [l]) (logged w)).
Proof. intros H. apply find_surrogate in H. unfold print. now rewrite H. Qed.

End PrintFacts.

(** A line of literal text is written. *)
Ltac prints :=
  rewrite print_ok by (vm_compute; reflexivity).

(** ** The extractor *)

Section ExtractorFacts.
Import Script.
Variable G : Engine.
Local Opaque u.

Lemma print_reply (w : world G) t :
  print [Text (u "Raw GPT Response Content:"); Text [NEWLINE];
         Value (PStr t)] w
  = match find surrogate t with
    | Some c => (Raised (Exn UnicodeEncodeError (SurrogatesNotAllowed c)), w)
    | None =>
        (Returned tt,
         World G (engine w) (calls w)
               (printed w ++ [[Text (u "Raw GPT Response Content:");
                               Text [NEWLINE]; Value (PStr t)]])
               (logged w))
    end.
Proof.
  unfold print, line_text. cbn [map piece_text List.concat]. rewrite app_nil_r.
  rewrite find_surrogate_app by (vm_compute; reflexivity).
  rewrite (@find_surrogate_app [NEWLINE] t) by reflexivity. reflexivity.
Qed.

Lemma report_returns (d : artifacts) (w : world G) :
  Forall (fun kv => encodable (fst kv) = true /\ encodable (snd kv) = true)
         d ->
  exists w', report d w = (Returned tt, w').
Proof.
  revert w. induction d as [|[name content] d IH]; intros w Hd.
  - now exists w.
  - inversion Hd as [|? ? [Hn Hc] Hd']; subst. cbn [fst snd] in Hn, Hc.
    cbn [report]. unfold bind.
    destruct (truthy (PStr content)).
    + rewrite print_ok; [now apply IH|].
      unfold line_text. cbn [map piece_text List.concat].
      rewrite !encodable_app, Hn, (@encodable_firstn 100 content Hc).
      vm_compute. reflexivity.
    + rewrite print_ok; [now apply IH|].
      unfold line_text. cbn [map piece_text List.concat].
      rewrite !encodable_app, Hn. vm_compute. reflexivity.
Qed.

(** The extractor on a response with a content: the debug print of the
    content comes first and raises for a text that cannot be encoded;
    after it nothing raises. *)
Lemma extract_carries r t (w : world G) :
  carries r t ->
  fst (extractRelevantContent r w) =
  match t with
  | [] => Returned None
  | _ :: _ =>
      match find surrogate t with
      | Some c => Raised (Exn UnicodeEncodeError (SurrogatesNotAllowed c))
      | None => Returned (bind_first_three (Re.findall t))
      end
  end.
Proof.
  destruct 1 as [d first rest m t Hc Hm Ht].
  unfold extractRelevantContent, bind, lift. cbn [get]. rewrite Hc.
  cbn [truthy negb getitem0 get]. rewrite Hm. cbn [get]. rewrite Ht.
  destruct t as [|c t]; cbn [truthy negb]; [prints; reflexivity|].
  rewrite print_reply.
  destruct (find surrogate (c :: t)) as [x|] eqn:Hf; [reflexivity|].
  apply find_surrogate in Hf. pose proof (encodable_findall _ Hf) as Hb.
  cbn [re_findall].
  destruct (Re.findall (c :: t)) as [|b0 [|b1 [|b2 bs]]];
    cbn [List.length Nat.ltb Nat.leb list_getitem nth_error];
    try (prints; reflexivity).
  inversion Hb as [|? ? E0 Hb1]; subst.
  inversion Hb1 as [|? ? E1 Hb2]; subst.
  inversion Hb2 as [|? ? E2 _]; subst.
  match goal with |- context [report ?d ?w] =>
    destruct (@report_returns d w) as [w' ->] end.
  { repeat (apply Forall_cons;
            [cbn [fst snd]; split;
             [vm_compute; reflexivity|now apply encodable_strip]|]).
    apply Forall_nil. }
  unfold bind_first_three, all_values, artifact_set. cbn [forallb snd truthy].
  destruct (strip b0), (strip b1), (strip b2); cbn [andb negb];
    try prints; reflexivity.
Qed.

(** With a text that can be encoded. *)
Lemma extract_encodable r t (w : world G) :
  carries r t -> encodable t = true ->
  fst (extractRelevantContent r w) =
  Returned (match t with [] => None | _ => bind_first_three (Re.findall t) end).
Proof.
  intros Hr Ht. rewrite (extract_carries w Hr). apply find_surrogate in Ht.
  rewrite Ht. now destruct t.
Qed.

(** With a text that cannot. *)
Lemma extract_unencodable r t (w : world G) :
  carries r t -> encodable t = false ->
  exists c,
    surrogate c = true /\ In c t
    /\ fst (extractRelevantContent r w)
       = Raised (Exn UnicodeEncodeError (SurrogatesNotAllowed c)).
Proof.
  intros Hr Ht. rewrite (extract_carries w Hr).
  destruct (find surrogate t) as [c|] eqn:Hf.
  - exists c. destruct (find_surrogate_In _ Hf) as [Hs Hin].
    split; [exact Hs|]. split; [exact Hin|]. now destruct t.
  - apply find_surrogate in Hf. congruence.
Qed.

Lemma oblivious_ret A (a : A) : oblivious (@ret G A a).
Proof. intros w w'. reflexivity. Qed.

Lemma oblivious_lift A (o : outcome A) : oblivious (@lift G A o).
Proof. intros w w'. reflexivity. Qed.

Lemma oblivious_print l : oblivious (@print G l).
Proof.
  intros w w'. unfold print. now destruct (find surrogate (line_text l)).
Qed.

Lemma oblivious_bind A B (m : M G A) (k : A -> M G B) :
  oblivious m -> (forall a, oblivious (k a)) -> oblivious (bind m k).
Proof.
  intros Hm Hk w w'. unfold bind. specialize (Hm w w').
  destruct (m w) as [[a|e] w1], (m w') as [[a'|e'] w1']; simpl in Hm;
    try discriminate; injection Hm as <-; [apply Hk|reflexivity].
Qed.

Lemma oblivious_report d : oblivious (@report G d).
Proof.
  induction d as [|[name content] d IH]; cbn [report].
  - apply oblivious_ret.
  - apply oblivious_bind; [|intros _; exact IH].
    destruct (truthy (PStr content)); apply oblivious_print.
Qed.

Ltac oblivious_step :=
  first
    [ apply oblivious_ret | apply oblivious_lift | apply oblivious_print
    | apply oblivious_report
    | apply oblivious_bind; [|intros ?]
    | match goal with
      | |- oblivious (if ?b then _ else _) => destruct b
      | |- oblivious (match ?x with _ => _ end) => destruct x
      end ].

Lemma extract_oblivious r : oblivious (@extractRelevantContent G r).
Proof. unfold extractRelevantContent. repeat oblivious_step. Qed.

(** Whatever the extractor does without a content it does not return
    artifacts. *)
Ltac no_artifacts :=
  let H := fresh "H" in
  intros H; vm_compute in H; discriminate H.

Lemma extract_some_carries r (w : world G) a :
  fst (extractRelevantContent r w) = Returned (Some a) ->
  exists t, carries r t /\ t <> [].
Proof.
  unfold extractRelevantContent, bind, lift.
  destruct r as [| | | | |l|d]; cbn [get fst]; try discriminate.
  destruct (lookup (u "choices") d) as [choices|] eqn:Hc;
    [|no_artifacts].
  destruct (truthy choices) eqn:Htc; cbn [negb]; [|no_artifacts].
  destruct choices as [| | | |s|[|first rest]|d']; cbn [getitem0];
    try no_artifacts.
  - destruct s; no_artifacts.
  - destruct first as [| | | | |l|first]; cbn [get fst]; try discriminate.
    destruct (lookup (u "message") first) as [message|] eqn:Hm.
    + destruct message as [| | | | |l|m]; cbn [get fst]; try discriminate.
      destruct (lookup (u "content") m) as [content|] eqn:Ht.
      * destruct (truthy content) eqn:Htt; cbn [negb]; [|no_artifacts].
        destruct content as [| | | |t| |]; try no_artifacts.
        intros _. exists t. split; [econstructor; eassumption|].
        destruct t; discriminate.
      * no_artifacts.
    + cbn [get]. destruct (lookup (u "content") []) eqn:E; [discriminate|].
      no_artifacts.
Qed.

Lemma completion_carries t : carries (completion t) t.
Proof. unfold completion. econstructor; reflexivity. Qed.

Lemma findall_three pre l1 b1 m1 l2 b2 m2 l3 b3 post :
  is_prose pre -> is_prose m1 -> is_prose m2 ->
  is_label l1 -> is_label l2 -> is_label l3 ->
  is_body b1 -> is_body b2 -> is_body b3 ->
  Re.findall (pre ++ block l1 b1 ++ m1 ++ block l2 b2 ++ m2 ++ block l3 b3
              ++ post)
  = b1 :: b2 :: b3 :: Re.findall post.
Proof.
  intros. rewrite findall_block by assumption.
  rewrite findall_block by assumption.
  rewrite findall_block by assumption.
  reflexivity.
Qed.

Lemma bind_first_three_spec b0 b1 b2 bs :
  bind_first_three (b0 :: b1 :: b2 :: bs) =
  let bound := artifact_set (strip b0) (strip b1) (strip b2) in
  if all_values bound then Some bound else None.
Proof.
  unfold bind_first_three, all_values, artifact_set.
  cbn [forallb snd truthy].
  destruct (strip b0), (strip b1), (strip b2); reflexivity.
Qed.

(** C1, as the code has it. The blocks are the ones the regular
    expression finds: for a text written as three blocks, each opened by a
    fence and a label line and closed by the next fence, with no fence of
    its own in what stands before and between them, the extractor binds
    Dockerfile, supervisord.conf and setup_services.sh to the trimmed
    bodies of the first, second and third block, whatever the labels and
    whatever follows the third block, and returns them when the three are
    not empty. It does so when the text can be encoded for standard
    output; when it cannot, the debug print of the text raises
    [UnicodeEncodeError] and nothing is extracted. *)
Theorem extract_binds_first_three
  (w : world G) r pre l1 b1 m1 l2 b2 m2 l3 b3 post :
  carries r (three_blocks pre l1 b1 m1 l2 b2 m2 l3 b3 post) ->
  is_prose pre -> is_prose m1 -> is_prose m2 ->
  is_label l1 -> is_label l2 -> is_label l3 ->
  is_body b1 -> is_body b2 -> is_body b3 ->
  let bound := artifact_set (strip b1) (strip b2) (strip b3) in
  (encodable (three_blocks pre l1 b1 m1 l2 b2 m2 l3 b3 post) = true ->
   fst (extractRelevantContent r w)
   = Returned (if all_values bound then Some bound else None)
   /\ (strip b1 <> [] -> strip b2 <> [] -> strip b3 <> [] ->
       fst (extractRelevantContent r w) = Returned (Some bound)))
  /\ (encodable (three_blocks pre l1 b1 m1 l2 b2 m2 l3 b3 post) = false ->
      exists c,
        surrogate c = true
        /\ In c (three_blocks pre l1 b1 m1 l2 b2 m2 l3 b3 post)
        /\ fst (extractRelevantContent r w)
           = Raised (Exn UnicodeEncodeError (SurrogatesNotAllowed c))).
Proof.
  intros Hr Hp0 Hp1 Hp2 Hl1 Hl2 Hl3 Hb1 Hb2 Hb3 bound.
  split; [|now apply extract_unencodable].
  intros Henc.
  assert (E : fst (extractRelevantContent r w)
              = Returned (if all_values bound then Some bound else None)).
  { rewrite (extract_encodable w Hr Henc). unfold three_blocks.
    rewrite findall_three by assumption.
    rewrite bind_first_three_spec.
    destruct pre; reflexivity. }
  split; [exact E|].
  intros N1 N2 N3. rewrite E. subst bound.
  unfold all_values, artifact_set. cbn [forallb snd truthy].
  destruct (strip b1), (strip b2), (strip b3);
    first [congruence | reflexivity].
Qed.

(** C2, as the code has it. Fewer than three blocks found, or one of the
    first three empty once trimmed: no artifacts are returned. The
    extractor then returns nothing when the text can be encoded for
    standard output, and raises [UnicodeEncodeError] at its debug print
    when it cannot. And whenever it returns artifacts, all three files are
    there and none is empty. *)
Theorem extract_incomplete_is_nothing (w : world G) r :
  (forall t,
     carries r t ->
     (List.length (Re.findall t) < 3)%nat
     \/ (exists i, (i < 3)%nat /\ strip (nth i (Re.findall t) []) = []) ->
     (forall a, fst (extractRelevantContent r w) <> Returned (Some a))
     /\ (encodable t = true ->
         fst (extractRelevantContent r w) = Returned None)
     /\ (encodable t = false ->
         exists c,
           surrogate c = true /\ In c t
           /\ fst (extractRelevantContent r w)
              = Raised (Exn UnicodeEncodeError (SurrogatesNotAllowed c))))
  /\ (forall a,
        fst (extractRelevantContent r w) = Returned (Some a) ->
        exists x y z,
          a = artifact_set x y z /\ x <> [] /\ y <> [] /\ z <> []).
Proof.
  split.
  - intros t Hr Hbad.
    assert (Hnone : encodable t = true ->
                    fst (extractRelevantContent r w) = Returned None).
    { intros Henc. rewrite (extract_encodable w Hr Henc).
      destruct t as [|c t]; [reflexivity|]. f_equal.
      destruct (Re.findall (c :: t)) as [|b0 [|b1 [|b2 bs]]];
        try reflexivity.
      destruct Hbad as [Hlen|(i & Hi & He)]; [simpl in Hlen; lia|].
      unfold bind_first_three.
      destruct i as [|[|[|i]]]; [| | |lia]; simpl in He; rewrite He;
        repeat match goal with |- context [match ?x with _ => _ end] =>
                 destruct x end; reflexivity. }
    split; [|split; [exact Hnone|now apply extract_unencodable]].
    intros a Ha. destruct (encodable t) eqn:Henc.
    + rewrite Hnone in Ha by reflexivity. discriminate.
    + destruct (extract_unencodable w Hr Henc) as (c & _ & _ & E).
      rewrite E in Ha. discriminate.
  - intros a Ha. destruct (extract_some_carries _ _ Ha) as (t & Hr & Ht).
    rewrite (extract_carries w Hr) in Ha.
    destruct t as [|c t]; [congruence|].
    destruct (find surrogate (c :: t)); [discriminate|].
    injection Ha as Ha. unfold bind_first_three in Ha.
    destruct (Re.findall (c :: t)) as [|b0 [|b1 [|b2 bs]]]; try discriminate.
    destruct (strip b0) as [|x0 x] eqn:E0; [discriminate|].
    destruct (strip b1) as [|y0 y] eqn:E1; [discriminate|].
    destruct (strip b2) as [|z0 z] eqn:E2; [discriminate|].
    injection Ha as <-.
    exists (x0 :: x), (y0 :: y), (z0 :: z). repeat split; discriminate.
Qed.

(** C7. No choices (the key missing or the list empty), or a first choice
    without a message, or whose message has no content or an empty one:
    the extractor returns nothing. It returns artifacts only for a
    response with a first choice whose message content is a non-empty
    text. *)
Theorem extract_needs_choice_and_content (w : world G) r :
  (forall d,
     r = PDict d ->
     lookup (u "choices") d = None \/ lookup (u "choices") d = Some (PList []) ->
     fst (extractRelevantContent r w) = Returned None)
  /\ (forall d first rest,
        r = PDict d ->
        lookup (u "choices") d = Some (PList (PDict first :: rest)) ->
        lookup (u "message") first = None
        \/ (exists m,
              lookup (u "message") first = Some (PDict m)
              /\ (lookup (u "content") m = None
                  \/ lookup (u "content") m = Some (PStr []))) ->
        fst (extractRelevantContent r w) = Returned None)
  /\ (forall a,
        fst (extractRelevantContent r w) = Returned (Some a) ->
        exists t, carries r t /\ t <> []).
Proof.
  split; [|split].
  - intros d -> [Hc|Hc]; unfold extractRelevantContent, bind, lift;
      cbn [get]; rewrite Hc; reflexivity.
  - intros d first rest -> Hc Hm.
    unfold extractRelevantContent, bind, lift.
    cbn [get]. rewrite Hc. cbn [truthy negb getitem0 get].
    destruct Hm as [Hm|(m & Hm & [Ht|Ht])]; rewrite Hm; cbn [get];
      try rewrite Ht; reflexivity.
  - intros a. apply extract_some_carries.
Qed.

(** C8. A run of the extractor that succeeds on a response, run again on
    the same response in the world the first run left behind, succeeds
    with the same artifacts. *)
Theorem extract_twice_identical (w w1 : world G) r a :
  extractRelevantContent r w = (Returned (Some a), w1) ->
  exists w2, extractRelevantContent r w1 = (Returned (Some a), w2).
Proof.
  intros H1. pose proof (extract_oblivious r w1 w) as E.
  rewrite H1 in E. simpl in E.
  destruct (extractRelevantContent r w1) as [o w2]. simpl in E. subst o.
  now exists w2.
Qed.

End ExtractorFacts.

(** ** The engine calls *)

Section EngineFacts.
Import Utils Script.
Variable G : Engine.
Local Opaque u.

Lemma subprocess_run_spec (w : world G) cmd check :
  subprocess_run cmd check w =
  (match fst (exec G (engine w) cmd) with
   | Raised e => Raised e
   | Returned p =>
       if check && negb (returncode p =? 0)%Z
       then Raised (Exn CalledProcessError (NonZeroExit (returncode p) cmd))
       else Returned p
   end,
   World G (snd (exec G (engine w) cmd)) (calls w ++ [cmd])
         (printed w) (logged w)).
Proof.
  unfold subprocess_run. destruct (exec G (engine w) cmd) as [[p|e] g];
    cbn [fst snd]; [|reflexivity].
  destruct (check && negb (returncode p =? 0)%Z); reflexivity.
Qed.

Lemma subclass_Exception c : subclass c Exception = true.
Proof. destruct c; reflexivity. Qed.


Lemma launches_fst (Hok : launches G) g cmd :
  exists p, fst (exec G g cmd) = Returned p.
Proof. destruct (Hok g cmd) as (p & g' & ->). now exists p. Qed.

Lemma checked_run (w : world G) cmd p :
  fst (exec G (engine w) cmd) = Returned p ->
  subprocess_run cmd true w =
  (if (returncode p =? 0)%Z then Returned p
   else Raised (Exn CalledProcessError (NonZeroExit (returncode p) cmd)),
   World G (snd (exec G (engine w) cmd)) (calls w ++ [cmd])
         (printed w) (logged w)).
Proof.
  intros Hp. rewrite subprocess_run_spec, Hp. cbn [andb].
  destruct (returncode p =? 0)%Z; reflexivity.
Qed.

Lemma checkContainerExists_ok (w : world G) name p :
  fst (exec G (engine w) (exists_cmd name)) = Returned p ->
  checkContainerExists name w =
  (Returned (strip (stdout p)),
   World G (snd (exec G (engine w) (exists_cmd name)))
         (calls w ++ [exists_cmd name]) (printed w) (logged w)).
Proof.
  intros Hp. unfold checkContainerExists, try_except, bind.
  fold (exists_cmd name). rewrite subprocess_run_spec, Hp. reflexivity.
Qed.

Ltac run_checked Hok :=
  match goal with
  | |- context [subprocess_run ?cmd true ?w0] =>
      let q := fresh "q" in
      let Hq := fresh "Hq" in
      let Hr := fresh "Hr" in
      destruct (launches_fst Hok (engine w0) cmd) as [q Hq];
      rewrite (@checked_run w0 cmd q Hq);
      cbn [engine calls printed logged] in *;
      destruct (returncode q =? 0)%Z eqn:Hr;
      cbn [cls subclass]; cbv beta iota
  end.

(** A clause of the statement about a path: line the assumed answers up
    with the ones met on the way, then compare the return codes. *)
Ltac same_answers :=
  intros;
  match goal with
  | Ha : answers _ _ _ = _ |- _ => cbn [answers] in Ha; injection Ha as; intros
  end;
  repeat match goal with
         | Hq : ?x = Returned _, E : ?x = Returned _ |- _ =>
             rewrite Hq in E; injection E as E; subst
         | Hid : strip (stdout _) = _ |- _ => progress (rewrite Hid in * )
         end;
  try congruence;
  repeat match goal with
         | Hr : (returncode _ =? 0)%Z = true |- _ =>
             first [rewrite Hr | apply Z.eqb_eq in Hr]
         | Hr : (returncode _ =? 0)%Z = false |- _ =>
             first [rewrite Hr | apply Z.eqb_neq in Hr]
         end;
  first
    [ reflexivity
    | congruence
    | eexists; split; [reflexivity|];
      repeat split; intros [Hin|[]]; discriminate Hin ].

(** C4, as the code has it. With an engine whose processes all start,
    [runDockerContainer] returns, and the run command is the last command
    it issues, whatever failed before it. With an instance under the
    reserved name and stop and remove both succeeding, the commands before
    the run are the existence query, stop, remove, the network check and,
    exactly when the check fails, the creation of the default network
    (192.168.200.0/24, gateway 192.168.200.1). Without an instance they are
    the query, the check and, when it fails, the creation. A failed stop is
    followed neither by remove nor by the check; a failed remove is not
    followed by the check. *)
Theorem run_call_sequence (w : world G) ip net :
  launches G ->
  exists w' before,
    runDockerContainer ip net w = (Returned tt, w')
    /\ calls w' = calls w ++ before ++ [run_cmd ip net]
    /\ replaces_instance G (engine w) net before
    /\ nothing_to_replace G (engine w) net before
    /\ stop_fails G (engine w) net before
    /\ remove_fails G (engine w) net before.
Proof.
  intros Hok. unfold runDockerContainer.
  match goal with
  | |- context [bind ?m ?k] => set (first_try := m); set (second_try := k)
  end.
  assert (P2 : forall w1, exists w2,
             second_try tt w1 = (Returned tt, w2)
             /\ calls w2 = calls w1 ++ [run_cmd ip net]).
  { intros w1. subst second_try. cbv beta.
    unfold try_except, bind, logging, enabled.
    fold (run_cmd ip net).
    destruct (launches_fst Hok (engine w1) (run_cmd ip net)) as [p Hp].
    rewrite (@checked_run _ _ p) by exact Hp.
    destruct (returncode p =? 0)%Z; cbn; eexists; split; reflexivity. }
  assert (P1 : exists w1 before,
             first_try w = (Returned tt, w1)
             /\ calls w1 = calls w ++ before
             /\ replaces_instance G (engine w) net before
             /\ nothing_to_replace G (engine w) net before
             /\ stop_fails G (engine w) net before
             /\ remove_fails G (engine w) net before).
  { clear P2. subst first_try.
    unfold createHostOnlyNetwork, try_except, bind, logging, enabled, ret.
    destruct (launches_fst Hok (engine w) (exists_cmd CONTAINER_NAME))
      as [q0 Hq0].
    rewrite (checkContainerExists_ok _ _ Hq0). cbv beta iota.
    fold (inspect_cmd net).
    fold (create_cmd net (u "192.168.200.0/24") (u "192.168.200.1")).
    fold (default_create_cmd net).
    fold (stop_cmd (strip (stdout q0))). fold (rm_cmd (strip (stdout q0))).
    destruct (strip (stdout q0)) as [|c0 id0] eqn:Hid; cbn [truthy];
      cbv beta iota.
    all: repeat run_checked Hok.
    all: eexists; eexists; split; [reflexivity|]; split;
      [cbn [calls]; rewrite <- !app_assoc; reflexivity|].
    all: unfold replaces_instance, nothing_to_replace, stop_fails,
           remove_fails.
    all: repeat split; same_answers. }
  destruct P1 as (w1 & before & E1 & C1 & K).
  destruct (P2 w1) as (w2 & E2 & C2).
  exists w2, before. split; [|split]; try assumption.
  - unfold bind. rewrite E1. exact E2.
  - rewrite C2, C1. now rewrite <- app_assoc.
Qed.

(** C5, as the code has it. The status query never raises. It answers
    "unknown" exactly when starting the query raised, and otherwise goes
    by what the process printed, whatever its return code: "running" for
    a line that is not blank, "stopped" for none. A query that runs and
    fails is thus not told from one that finds nothing. *)
Theorem status_never_raises (w : world G) name :
  fst (checkContainerStatus name w) =
  Returned
    match fst (exec G (engine w) (status_cmd name)) with
    | Raised _ => u "unknown"
    | Returned p =>
        match strip (stdout p) with
        | [] => u "stopped"
        | _ :: _ => u "running"
        end
    end.
Proof.
  unfold checkContainerStatus, try_except, bind.
  fold (status_cmd name). rewrite subprocess_run_spec.
  destruct (fst (exec G (engine w) (status_cmd name))) as [p|e]; cbn.
  - destruct (strip (stdout p)); reflexivity.
  - rewrite subclass_Exception. reflexivity.
Qed.


End EngineFacts.

(** ** The gateway calculator *)

Section GatewayFacts.
Import Ipaddress Utils.
Local Open Scope Z_scope.
Local Opaque u.

Lemma raises_only_obind A B (m : outcome A) (k : A -> outcome B) c :
  raises_only m c -> (forall a, raises_only (k a) c) ->
  raises_only (obind m k) c.
Proof.
  unfold raises_only. intros Hm Hk e. destruct m as [a|e']; cbn [obind].
  - apply Hk.
  - intros [= <-]. now apply Hm.
Qed.

Lemma raises_only_Returned A (a : A) c : raises_only (Returned a) c.
Proof. intros e. discriminate. Qed.

Lemma raises_only_Raised A c d m :
  subclass c d = true -> raises_only (@Raised A (Exn c m)) d.
Proof. intros H e [= <-]. exact H. Qed.

Lemma raises_only_oexcept A (m : outcome A) c h d :
  raises_only m c -> (forall e, raises_only (h e) d) ->
  raises_only (oexcept m c h) d.
Proof.
  unfold raises_only. intros Hm Hh e.
  destruct m as [a|e']; cbn [oexcept]; [discriminate|].
  rewrite (Hm e' eq_refl). apply Hh.
Qed.

Lemma raises_only_if A (b : bool) (x y : outcome A) c :
  raises_only x c -> raises_only y c -> raises_only (if b then x else y) c.
Proof. now destruct b. Qed.

Lemma raises_only_weaken A (o : outcome A) c d :
  subclass c d = true -> raises_only o c -> raises_only o d.
Proof.
  intros Hcd Ho e He. specialize (Ho e He).
  destruct (cls e), c, d; try discriminate; reflexivity.
Qed.

Create HintDb raising.
#[local] Hint Resolve raises_only_obind raises_only_Returned
  raises_only_oexcept raises_only_if : raising.
#[local] Hint Extern 1 (raises_only (Raised _) _) =>
  apply raises_only_Raised; reflexivity : raising.
#[local] Hint Extern 1 (raises_only (_report_invalid_netmask _) _) =>
  apply raises_only_Raised; reflexivity : raising.

Lemma split_not_nil sep s : split sep s <> [].
Proof.
  destruct s as [|c s]; simpl; [discriminate|].
  destruct (c =? sep)%N; [discriminate|].
  destruct (split sep s); discriminate.
Qed.

Lemma parse_octet_raises s : raises_only (_parse_octet s) ValueError.
Proof. unfold _parse_octet. destruct s; auto 10 with raising. Qed.

Lemma mapM_raises A B (f : A -> outcome B) l c :
  (forall x, raises_only (f x) c) -> raises_only (mapM f l) c.
Proof. intros Hf. induction l; cbn [mapM]; auto with raising. Qed.

Lemma ip_int_from_string_raises s :
  raises_only (_ip_int_from_string s) AddressValueError.
Proof.
  pose proof parse_octet_raises. pose proof mapM_raises.
  unfold _ip_int_from_string. destruct s; auto 10 with raising.
Qed.

Lemma prefix_from_ip_int_raises n :
  raises_only (_prefix_from_ip_int n) ValueError.
Proof. unfold _prefix_from_ip_int. cbv zeta. auto with raising. Qed.

Lemma int_of_digits_raises s : raises_only (int_of_digits s) ValueError.
Proof. unfold int_of_digits. auto with raising. Qed.

Lemma prefix_from_prefix_string_raises s :
  raises_only (_prefix_from_prefix_string s) NetmaskValueError.
Proof.
  pose proof int_of_digits_raises.
  unfold _prefix_from_prefix_string. auto 10 with raising.
Qed.

Lemma prefix_from_ip_string_raises s :
  raises_only (_prefix_from_ip_string s) NetmaskValueError.
Proof.
  pose proof ip_int_from_string_raises. pose proof prefix_from_ip_int_raises.
  unfold _prefix_from_ip_string. auto 10 with raising.
Qed.

Lemma check_int_address_raises n :
  raises_only (_check_int_address n) AddressValueError.
Proof. unfold _check_int_address. auto with raising. Qed.

Lemma make_netmask_raises m : raises_only (_make_netmask m) ValueError.
Proof.
  pose proof prefix_from_prefix_string_raises.
  pose proof (fun s =>
    @raises_only_weaken _ _ NetmaskValueError ValueError eq_refl
      (prefix_from_ip_string_raises s)).
  pose proof (fun n =>
    @raises_only_weaken _ _ AddressValueError ValueError eq_refl
      (check_int_address_raises n)).
  unfold _make_netmask. apply raises_only_obind.
  - destruct m; auto with raising.
  - intros prefixlen. cbv zeta. auto with raising.
Qed.

Lemma split_addr_prefix_raises s :
  raises_only (_split_addr_prefix s) ValueError.
Proof.
  unfold _split_addr_prefix, _split_optional_netmask.
  pose proof (split_not_nil SLASH s) as Hne.
  destruct (_ <? _)%nat; cbn [obind]; [auto with raising|].
  destruct (split SLASH s) as [|a [|m [|x l]]];
    first [congruence | apply raises_only_Returned].
Qed.

Lemma IPv4Address_of_int_raises n :
  raises_only (IPv4Address_of_int n) ValueError.
Proof.
  pose proof (@raises_only_weaken _ _ AddressValueError ValueError eq_refl
                (check_int_address_raises n)).
  unfold IPv4Address_of_int. auto with raising.
Qed.

Lemma IPv4Address_of_str_raises s :
  raises_only (IPv4Address_of_str s) ValueError.
Proof.
  pose proof (@raises_only_weaken _ _ AddressValueError ValueError eq_refl
                (ip_int_from_string_raises s)).
  unfold IPv4Address_of_str. auto with raising.
Qed.

(** Whatever [IPv4Network] raises on a string is a [ValueError]. *)
Lemma IPv4Network_raises s strict :
  raises_only (IPv4Network_of_str s strict) ValueError.
Proof.
  pose proof split_addr_prefix_raises. pose proof IPv4Address_of_str_raises.
  pose proof make_netmask_raises. pose proof IPv4Address_of_int_raises.
  unfold IPv4Network_of_str.
  apply raises_only_obind; [auto|]. intros [addr m].
  apply raises_only_obind; [auto|]. intros ip.
  apply raises_only_obind; [auto|]. intros [mask p]. cbv zeta.
  destruct strict; auto 10 with raising.
Qed.

(** C6. A string that [IPv4Network] does not parse: the calculator raises
    [ValueError] with the text "Invalid subnet format: ..." around the
    parser's message, and returns no address. *)
Theorem gateway_rejects_unparseable s e :
  IPv4Network_of_str s false = Raised e ->
  calculateGatewayIp s = Raised (Exn ValueError (InvalidSubnetFormat (msg e))).
Proof.
  intros H. unfold calculateGatewayIp. rewrite H. cbn [obind oexcept].
  now rewrite (IPv4Network_raises s false H).
Qed.


(** Take a successful run of the library code apart. *)
Ltac crack H :=
  repeat match type of H with
         | context [obind ?m _] =>
             let E := fresh "E" in destruct m eqn:E; cbn [obind] in H
         | context [oexcept ?m _ _] =>
             let E := fresh "E" in destruct m eqn:E; cbn [oexcept] in H
         | context [if ?b then _ else _] =>
             let E := fresh "E" in destruct b eqn:E
         | context [_report_invalid_netmask] =>
             unfold _report_invalid_netmask in H
         end;
  try discriminate.

Lemma digits_value_nonneg s acc :
  forallb is_digit s = true -> 0 <= acc ->
  0 <= fold_left (fun acc c => 10 * acc + (Z.of_N c - 48)) s acc.
Proof.
  revert acc. induction s as [|c s IH]; intros acc Hd Hacc; cbn [fold_left].
  - exact Hacc.
  - cbn [forallb] in Hd. apply andb_prop in Hd as [Hc Hs].
    apply IH; [exact Hs|]. unfold is_digit in Hc.
    apply andb_prop in Hc as [Hlo Hhi]. apply N.leb_le in Hlo. lia.
Qed.

Lemma parse_octet_range s b : _parse_octet s = Returned b -> 0 <= b <= 255.
Proof.
  unfold _parse_octet. destruct s as [|c s]; [discriminate|].
  intros H. crack H. injection H as <-. split.
  - apply digits_value_nonneg; [|lia].
    unfold isascii_and_isdigit in E. now destruct (forallb is_digit (c :: s)).
  - apply Z.ltb_ge in E2. exact E2.
Qed.

Lemma mapM_Forall A B (f : A -> outcome B) (P : B -> Prop) l bs :
  (forall x y, f x = Returned y -> P y) ->
  mapM f l = Returned bs -> Forall P bs /\ List.length bs = List.length l.
Proof.
  intros Hf. revert bs. induction l as [|x l IH]; intros bs; cbn [mapM].
  - intros [= <-]. split; constructor.
  - intros H. crack H. injection H as <-.
    destruct (IH _ eq_refl) as [Hall Hlen]. split.
    + constructor; [eapply Hf; eassumption|exact Hall].
    + simpl. now rewrite Hlen.
Qed.

Lemma ip_int_from_string_range s ip :
  _ip_int_from_string s = Returned ip -> 0 <= ip <= _ALL_ONES.
Proof.
  unfold _ip_int_from_string. destruct s as [|c s]; [discriminate|].
  intros H. crack H.
  injection H as <-.
    match goal with
    | Hm : mapM _ _ = Returned ?bs, Hl : negb _ = false |- _ =>
        apply mapM_Forall with (P := fun b => 0 <= b <= 255) in Hm
          as [Hall Hlen]; [|apply parse_octet_range];
        apply negb_false_iff, Nat.eqb_eq in Hl; rewrite Hl in Hlen;
        destruct bs as [|b3 [|b2 [|b1 [|b0 [|x bs]]]]]; try discriminate
    end.
    repeat match goal with
           | Hf : Forall _ (_ :: _) |- _ => inversion Hf; subst; clear Hf
           end.
    repeat match goal with
           | He : Returned _ = Returned _ |- _ => injection He as He; subst
           end.
    unfold from_bytes_big. cbn [fold_left].
    change _ALL_ONES with 4294967295. lia.
Qed.


Lemma Returned_inj A (a b : A) : Returned a = Returned b -> a = b.
Proof. congruence. Qed.

Lemma bit_length_nonneg n : 0 <= bit_length n.
Proof.
  unfold bit_length. destruct (Z.abs n =? 0); [lia|].
  pose proof (Z.log2_nonneg (Z.abs n)). lia.
Qed.

Lemma count_righthand_zero_bits_range n :
  0 <= _count_righthand_zero_bits n 32 <= 32.
Proof.
  unfold _count_righthand_zero_bits. destruct (n =? 0); [lia|].
  pose proof (bit_length_nonneg (Z.land (Z.lnot n) (n - 1))). lia.
Qed.

Lemma prefix_from_ip_int_range n p :
  _prefix_from_ip_int n = Returned p -> 0 <= p <= 32.
Proof.
  unfold _prefix_from_ip_int. cbv zeta. intros H. crack H.
  apply Returned_inj in H as <-. pose proof (count_righthand_zero_bits_range n) as Hr.
  change _max_prefixlen with 32 in *. lia.
Qed.

Lemma prefix_from_prefix_string_range s p :
  _prefix_from_prefix_string s = Returned p -> 0 <= p <= 32.
Proof.
  unfold _prefix_from_prefix_string. intros H. crack H.
  injection H as <-.
  match goal with
  | Hr : negb _ = false |- _ =>
      apply negb_false_iff, andb_prop in Hr as [Hlo Hhi];
      apply Z.leb_le in Hlo, Hhi
  end.
  change _max_prefixlen with 32 in *. lia.
Qed.

Lemma prefix_from_ip_string_range s p :
  _prefix_from_ip_string s = Returned p -> 0 <= p <= 32.
Proof.
  unfold _prefix_from_ip_string. intros H. crack H;
    first [ injection H as <-; eapply prefix_from_ip_int_range; eassumption
          | eapply prefix_from_ip_int_range; eassumption ].
Qed.

(** The 33 prefix lengths, one by one. *)
Lemma prefix_cases (P : Z -> Prop) :
  (forall n : nat, (n <= 32)%nat -> P (Z.of_nat n)) ->
  forall p, 0 <= p <= 32 -> P p.
Proof.
  intros H p Hp. rewrite <- (Z2Nat.id p) by lia. apply H. lia.
Qed.

Lemma netmask_is_ldiff p :
  0 <= p <= 32 ->
  _ip_int_from_prefix p = Z.ldiff (Z.ones 32) (Z.ones (32 - p)).
Proof.
  intros Hp. pattern p. apply prefix_cases; [|exact Hp]. clear.
  intros n Hn.
  do 33 (destruct n as [|n]; [reflexivity|]). lia.
Qed.

Lemma netmask_range p :
  0 <= p <= 32 -> 0 <= _ip_int_from_prefix p <= _ALL_ONES.
Proof.
  intros Hp. pattern p. apply prefix_cases; [|exact Hp]. clear.
  intros n Hn.
  do 33 (destruct n as [|n]; [vm_compute; split; discriminate|]). lia.
Qed.

Lemma netmask_all_ones p :
  0 <= p <= 32 -> _ip_int_from_prefix p = _ALL_ONES -> p = 32.
Proof.
  intros Hp. pattern p. apply prefix_cases; [|exact Hp]. clear.
  intros n Hn.
  do 32 (destruct n as [|n]; [vm_compute; discriminate|]).
  destruct n; [reflexivity|lia].
Qed.

(** Masking an address keeps its bits above the host part. *)
Lemma base_formula ip p :
  0 <= ip <= _ALL_ONES -> 0 <= p <= 32 ->
  Z.land ip (_ip_int_from_prefix p) = ip / 2 ^ (32 - p) * 2 ^ (32 - p).
Proof.
  intros Hip Hp. rewrite netmask_is_ldiff by exact Hp.
  rewrite <- Z.shiftr_div_pow2, <- Z.shiftl_mul_pow2 by lia.
  rewrite <- Z.ldiff_ones_r by lia.
  apply Z.bits_inj'. intros n Hn.
  rewrite Z.land_spec, !Z.ldiff_spec.
  destruct (Z.testbit ip n) eqn:Hbit; [|reflexivity]. cbn [andb].
  destruct (Z.ltb_spec n 32) as [Hlt|Hge].
  - rewrite Z.ones_spec_low by lia. reflexivity.
  - exfalso. change _ALL_ONES with (2 ^ 32 - 1) in Hip.
    assert (Hz : Z.testbit ip n = false); [|congruence].
    destruct (Z.eq_dec ip 0) as [->|Hnz]; [apply Z.bits_0|].
    apply Z.bits_above_log2; [lia|].
    assert (Z.log2 ip < 32) by (apply Z.log2_lt_pow2; lia). lia.
Qed.

Lemma base_range ip p :
  0 <= ip <= _ALL_ONES -> 0 <= p <= 32 ->
  0 <= Z.land ip (_ip_int_from_prefix p) <= ip.
Proof.
  intros Hip Hp. rewrite base_formula by assumption.
  assert (Hpow : 0 < 2 ^ (32 - p)) by (apply Z.pow_pos_nonneg; lia).
  pose proof (Z.mul_div_le ip _ Hpow).
  pose proof (Z.div_pos ip _ (proj1 Hip) Hpow). nia.
Qed.

Lemma make_netmask_ok m mask p :
  _make_netmask m = Returned (mask, p) ->
  0 <= p <= 32 /\ mask = _ip_int_from_prefix p.
Proof.
  unfold _make_netmask. intros H.
  match type of H with
  | obind ?pre _ = _ => destruct pre as [q|e] eqn:Hpre; cbn [obind] in H
  end; [|discriminate].
  crack H. injection H as <- <-. split; [|reflexivity].
  destruct m as [q'|text].
  - crack Hpre. injection Hpre as <-.
    match goal with
    | Hr : negb _ = false |- _ =>
        apply negb_false_iff, andb_prop in Hr as [Hlo Hhi];
        apply Z.leb_le in Hlo, Hhi
    end.
    change _max_prefixlen with 32 in *. lia.
  - crack Hpre.
    + injection Hpre as <-. eapply prefix_from_prefix_string_range.
      eassumption.
    + eapply prefix_from_ip_string_range. eassumption.
Qed.


Lemma split_no_sep sep s :
  existsb (fun c => (c =? sep)%N) s = false -> split sep s = [s].
Proof.
  induction s as [|c s IH]; cbn [existsb split]; [reflexivity|].
  intros H. apply orb_false_elim in H as [Hc Hs].
  rewrite Hc, (IH Hs). reflexivity.
Qed.

Lemma split_app_sep sep a rest :
  existsb (fun c => (c =? sep)%N) a = false ->
  split sep (a ++ sep :: rest) = a :: split sep rest.
Proof.
  induction a as [|c a IH]; cbn [existsb split app].
  - intros _. now rewrite N.eqb_refl.
  - intros H. apply orb_false_elim in H as [Hc Ha].
    rewrite Hc, (IH Ha). reflexivity.
Qed.

Lemma octets_checked :
  forallb octet_text_ok (map Z.of_nat (seq 0 256)) = true.
Proof. vm_compute. reflexivity. Qed.

Lemma octet_text b :
  0 <= b <= 255 ->
  existsb (fun c => (c =? DOT)%N) (str_of_int b) = false
  /\ _parse_octet (str_of_int b) = Returned b.
Proof.
  intros Hb. pose proof octets_checked as H.
  rewrite forallb_forall in H. specialize (H b).
  assert (Hin : In b (map Z.of_nat (seq 0 256))).
  { rewrite <- (Z2Nat.id b) by lia. apply in_map, in_seq. lia. }
  specialize (H Hin). unfold octet_text_ok in H. cbv zeta in H.
  apply andb_prop in H as [Hdot Hparse]. split.
  - now apply negb_true_iff in Hdot.
  - destruct (_parse_octet (str_of_int b)) as [b'|]; [|discriminate].
    apply Z.eqb_eq in Hparse. now subst.
Qed.

Lemma to_bytes4_big_range n :
  Forall (fun b => 0 <= b <= 255) (to_bytes4_big n).
Proof.
  unfold to_bytes4_big.
  repeat constructor; try (apply Z.mod_pos_bound; lia);
    match goal with
    | |- ?x mod 256 <= 255 => pose proof (Z.mod_pos_bound x 256); lia
    end.
Qed.

Lemma from_to_bytes4 n :
  0 <= n <= _ALL_ONES -> from_bytes_big (to_bytes4_big n) = n.
Proof.
  change _ALL_ONES with 4294967295. intros Hn.
  unfold from_bytes_big, to_bytes4_big. cbn [fold_left].
  rewrite !Z.shiftr_div_pow2 by lia.
  change (2 ^ 24) with 16777216. change (2 ^ 16) with 65536.
  change (2 ^ 8) with 256.
  Z.div_mod_to_equations. lia.
Qed.

(** The dotted-decimal text of an address reads back as that address. *)
Lemma string_from_ip_int_roundtrip n :
  0 <= n <= _ALL_ONES ->
  _ip_int_from_string (_string_from_ip_int n) = Returned n.
Proof.
  intros Hn. unfold _string_from_ip_int.
  pose proof (to_bytes4_big_range n) as Hr.
  pose proof (from_to_bytes4 Hn) as Hv.
  destruct (to_bytes4_big n) as [|b3 [|b2 [|b1 [|b0 [|x l]]]]] eqn:Hb;
    try discriminate.
  repeat match goal with
         | Hf : Forall _ (_ :: _) |- _ => inversion Hf; subst; clear Hf
         end.
  assert (T3 := @octet_text b3). destruct T3 as [D3 P3]; [assumption|].
  assert (T2 := @octet_text b2). destruct T2 as [D2 P2]; [assumption|].
  assert (T1 := @octet_text b1). destruct T1 as [D1 P1]; [assumption|].
  assert (T0 := @octet_text b0). destruct T0 as [D0 P0]; [assumption|].
  cbn [map join].
  assert (Hs : split DOT (str_of_int b3 ++ DOT :: str_of_int b2 ++ DOT ::
                          str_of_int b1 ++ DOT :: str_of_int b0)
               = [str_of_int b3; str_of_int b2; str_of_int b1;
                  str_of_int b0]).
  { rewrite !split_app_sep by assumption. now rewrite split_no_sep. }
  unfold _ip_int_from_string.
  destruct (str_of_int b3 ++ DOT :: str_of_int b2 ++ DOT ::
            str_of_int b1 ++ DOT :: str_of_int b0) as [|c s] eqn:Htext.
  { destruct (str_of_int b3); discriminate. }
  rewrite Hs. cbn [List.length Nat.eqb negb mapM].
  rewrite P3, P2, P1, P0. cbn [obind oexcept]. congruence.
Qed.


Lemma IPv4Address_of_str_range addr ip :
  IPv4Address_of_str addr = Returned ip -> 0 <= ip <= _ALL_ONES.
Proof.
  unfold IPv4Address_of_str.
  destruct (existsb (fun c => (c =? SLASH)%N) addr); [discriminate|].
  apply ip_int_from_string_range.
Qed.

Lemma IPv4Address_of_int_ok n :
  0 <= n <= _ALL_ONES -> IPv4Address_of_int n = Returned n.
Proof.
  intros Hn. unfold IPv4Address_of_int, _check_int_address.
  destruct (Z.ltb_spec n 0); [lia|].
  destruct (Z.ltb_spec _ALL_ONES n); [lia|]. reflexivity.
Qed.

Lemma IPv4Address_of_int_inv n a :
  IPv4Address_of_int n = Returned a -> a = n /\ 0 <= n <= _ALL_ONES.
Proof.
  unfold IPv4Address_of_int, _check_int_address.
  destruct (Z.ltb_spec n 0); [discriminate|].
  destruct (Z.ltb_spec _ALL_ONES n); [discriminate|].
  cbn [obind]. intros Hret. apply Returned_inj in Hret. lia.
Qed.

(** What a parsed network consists of. *)
Lemma IPv4Network_inv s net :
  IPv4Network_of_str s false = Returned net ->
  exists addr m ip,
    _split_addr_prefix s = Returned (addr, m)
    /\ IPv4Address_of_str addr = Returned ip
    /\ _make_netmask m = Returned (netmask net, _prefixlen net)
    /\ network_address net = Z.land ip (netmask net).
Proof.
  unfold IPv4Network_of_str. intros H.
  destruct (_split_addr_prefix s) as [[addr m]|] eqn:Hs; [|discriminate].
  cbn [obind] in H.
  destruct (IPv4Address_of_str addr) as [ip|] eqn:Ha; [|discriminate].
  cbn [obind] in H.
  destruct (_make_netmask m) as [[mask p]|] eqn:Hm; [|discriminate].
  cbn [obind] in H. cbv zeta in H.
  exists addr, m, ip.
  destruct (Z.eqb_spec (Z.land ip mask) ip) as [Heq|Hneq]; cbn [negb] in H.
  - apply Returned_inj in H as <-. cbn. now rewrite Heq.
  - destruct (IPv4Address_of_int (Z.land ip mask)) as [na|] eqn:Hna;
      [|discriminate].
    cbn [obind] in H. apply Returned_inj in H as <-. cbn.
    apply IPv4Address_of_int_inv in Hna as [-> _]. auto.
Qed.

Lemma gateway_value s net :
  IPv4Network_of_str s false = Returned net ->
  0 <= network_address net <= _ALL_ONES ->
  (network_address net <> _ALL_ONES ->
   calculateGatewayIp s
   = Returned (_string_from_ip_int (network_address net + 1)))
  /\ (network_address net = _ALL_ONES ->
      calculateGatewayIp s
      = Raised (Exn ValueError (InvalidSubnetFormat (IntTooLarge (2 ^ 32))))).
Proof.
  intros H Hr. unfold calculateGatewayIp. rewrite H. cbn [obind].
  unfold IPv4Address_add. split.
  - intros Hne. rewrite IPv4Address_of_int_ok by lia. reflexivity.
  - intros ->. reflexivity.
Qed.

(** C3, as the code has it. For a string the parser accepts, the network
    address is the parsed address with the bits below the prefix cleared
    (bits set there are ignored, not refused); unless that address is
    255.255.255.255, the calculator returns the dotted-decimal text of the
    network address plus one, for every prefix length, /31 and /32
    included. For 255.255.255.255, which can only be a /32, the calculator
    raises its "Invalid subnet format" error. *)
Theorem gateway_is_base_plus_one s net :
  IPv4Network_of_str s false = Returned net ->
  (exists addr m ip,
     _split_addr_prefix s = Returned (addr, m)
     /\ IPv4Address_of_str addr = Returned ip
     /\ 0 <= _prefixlen net <= 32
     /\ network_address net
        = ip / 2 ^ (32 - _prefixlen net) * 2 ^ (32 - _prefixlen net))
  /\ (network_address net <> _ALL_ONES ->
      calculateGatewayIp s
      = Returned (_string_from_ip_int (network_address net + 1))
      /\ _ip_int_from_string (_string_from_ip_int (network_address net + 1))
         = Returned (network_address net + 1))
  /\ (network_address net = _ALL_ONES ->
      _prefixlen net = 32
      /\ calculateGatewayIp s
         = Raised (Exn ValueError
                       (InvalidSubnetFormat (IntTooLarge (2 ^ 32))))).
Proof.
  intros H.
  destruct (IPv4Network_inv s H) as (addr & m & ip & Hs & Ha & Hm & Hna).
  pose proof (IPv4Address_of_str_range _ Ha) as Hip.
  destruct (make_netmask_ok m Hm) as [Hp Hmask].
  assert (Hbase : 0 <= network_address net <= ip).
  { rewrite Hna, Hmask. now apply base_range. }
  destruct (gateway_value s H) as [Hok Hbad]; [lia|].
  split; [|split].
  - exists addr, m, ip. repeat split; try assumption; try lia.
    rewrite Hna, Hmask. now apply base_formula.
  - intros Hne. split; [now apply Hok|].
    apply string_from_ip_int_roundtrip. lia.
  - intros Hall. split; [|now apply Hbad].
    apply netmask_all_ones; [exact Hp|].
    assert (Hipall : ip = _ALL_ONES) by lia.
    rewrite Hna, Hipall in Hall. rewrite <- Hmask.
    pose proof (netmask_range Hp) as Hmr. rewrite <- Hmask in Hmr.
    change _ALL_ONES with (Z.ones 32) in Hall at 1.
    rewrite Z.land_comm, Z.land_ones in Hall by lia.
    rewrite Z.mod_small in Hall; [exact Hall|].
    change _ALL_ONES with (2 ^ 32 - 1) in Hmr. lia.
Qed.

(** C10, as the code has it. A string without a slash that reads as an
    address is taken as the /32 network of that address, and the
    calculator returns the address plus one, in dotted-decimal text,
    unless the address is 255.255.255.255, for which it raises its
    "Invalid subnet format" error. *)
Theorem gateway_of_bare_address s ip :
  existsb (fun c => (c =? SLASH)%N) s = false ->
  _ip_int_from_string s = Returned ip ->
  IPv4Network_of_str s false = Returned (Build_IPv4Network ip _ALL_ONES 32)
  /\ (ip <> _ALL_ONES ->
      calculateGatewayIp s = Returned (_string_from_ip_int (ip + 1)))
  /\ (ip = _ALL_ONES ->
      calculateGatewayIp s
      = Raised (Exn ValueError (InvalidSubnetFormat (IntTooLarge (2 ^ 32))))).
Proof.
  intros Hslash Hparse.
  pose proof (ip_int_from_string_range _ Hparse) as Hip.
  assert (Hnet : IPv4Network_of_str s false
                 = Returned (Build_IPv4Network ip _ALL_ONES 32)).
  { unfold IPv4Network_of_str, _split_addr_prefix, _split_optional_netmask.
    rewrite (split_no_sep _ _ Hslash). cbn [List.length Nat.ltb Nat.leb obind].
    unfold IPv4Address_of_str. rewrite Hslash, Hparse. cbn [obind].
    change (_make_netmask (MaskInt _max_prefixlen))
      with (Returned (A := Z * Z) (_ALL_ONES, 32)).
    cbn [obind]. cbv zeta.
    change _ALL_ONES with (Z.ones 32) at 1 2.
    rewrite Z.land_ones, Z.mod_small by
      (change _ALL_ONES with (2 ^ 32 - 1) in Hip; lia).
    rewrite Z.eqb_refl. reflexivity. }
  split; [exact Hnet|].
  apply (gateway_value s Hnet). exact Hip.
Qed.

End GatewayFacts.

(** ** The statements at concrete inputs *)

Lemma launches_scripted : launches scripted.
Proof. intros [|p g] cmd; eexists; eexists; reflexivity. Qed.

Lemma run_call_sequence_witness :
  launches scripted
  /\ (exists w' before,
        Script.runDockerContainer (u "192.168.200.10") (u "honeynet")
          (fresh replace_script) = (Returned tt, w')
        /\ calls w' = before ++ [run_cmd (u "192.168.200.10") (u "honeynet")]
        /\ before =
           [exists_cmd Script.CONTAINER_NAME; stop_cmd (u "abc123");
            rm_cmd (u "abc123"); inspect_cmd (u "honeynet");
            default_create_cmd (u "honeynet")])
  /\ (exists w' before rest,
        Script.runDockerContainer (u "192.168.200.10") (u "honeynet")
          (fresh stop_refused_script) = (Returned tt, w')
        /\ calls w' = before ++ [run_cmd (u "192.168.200.10") (u "honeynet")]
        /\ before =
           [exists_cmd Script.CONTAINER_NAME; stop_cmd (u "abc123")] ++ rest
        /\ ~ In (rm_cmd (u "abc123")) rest
        /\ ~ In (inspect_cmd (u "honeynet")) rest).
Proof.
  split; [exact launches_scripted|]. split.
  - destruct (@run_call_sequence scripted (fresh replace_script)
                (u "192.168.200.10") (u "honeynet") launches_scripted)
      as (w' & before & E & C & K & _).
    exists w', before. split; [exact E|]. split; [exact C|].
    exact (K (Completed 0 (u "abc123" ++ [NEWLINE])) (Completed 0 [])
             (Completed 0 []) (Completed 1 [])
             eq_refl ltac:(vm_compute; discriminate) eq_refl eq_refl).
  - destruct (@run_call_sequence scripted (fresh stop_refused_script)
                (u "192.168.200.10") (u "honeynet") launches_scripted)
      as (w' & before & E & C & _ & _ & K & _).
    destruct (K (Completed 0 (u "abc123" ++ [NEWLINE])) (Completed 1 [])
                eq_refl ltac:(vm_compute; discriminate)
                ltac:(vm_compute; discriminate))
      as (rest & Hb & Hrm & Hin).
    exists w', before, rest. auto.
Defined.

(** C4 against the code: an instance that refuses to stop is not removed,
    and the default network and the run command are issued all the same;
    a network that cannot be created does not hold the run command back
    either. *)
Lemma run_goes_on_after_failure :
  Script.runDockerContainer (u "192.168.200.10") (u "honeynet")
    (fresh stop_refused_script)
  = (Returned tt,
     World scripted []
       [exists_cmd Script.CONTAINER_NAME; stop_cmd (u "abc123");
        default_create_cmd (u "honeynet");
        run_cmd (u "192.168.200.10") (u "honeynet")]
       (printed (snd (Script.runDockerContainer (u "192.168.200.10")
                        (u "honeynet") (fresh stop_refused_script))))
       (logged (snd (Script.runDockerContainer (u "192.168.200.10")
                       (u "honeynet") (fresh stop_refused_script)))))
  /\ calls (snd (Script.runDockerContainer (u "192.168.200.10")
                   (u "honeynet") (fresh no_network_script)))
     = [exists_cmd Script.CONTAINER_NAME; inspect_cmd (u "honeynet");
        default_create_cmd (u "honeynet");
        run_cmd (u "192.168.200.10") (u "honeynet")].
Proof. split; vm_compute; reflexivity. Qed.

Lemma gateway_is_base_plus_one_witness :
  Utils.calculateGatewayIp (u "192.168.200.0/24")
  = Returned (u "192.168.200.1")
  /\ Utils.calculateGatewayIp (u "192.168.200.77/24")
     = Returned (u "192.168.200.1")
  /\ Utils.calculateGatewayIp (u "10.9.8.7/32") = Returned (u "10.9.8.8").
Proof.
  split; [|split].
  - refine (proj1 (proj1 (proj2
      (@gateway_is_base_plus_one (u "192.168.200.0/24")
         (Ipaddress.Build_IPv4Network 3232286720 4294967040 24) _)) _));
      vm_compute; [reflexivity|discriminate].
  - refine (proj1 (proj1 (proj2
      (@gateway_is_base_plus_one (u "192.168.200.77/24")
         (Ipaddress.Build_IPv4Network 3232286720 4294967040 24) _)) _));
      vm_compute; [reflexivity|discriminate].
  - refine (proj1 (proj1 (proj2
      (@gateway_is_base_plus_one (u "10.9.8.7/32")
         (Ipaddress.Build_IPv4Network 168364039 4294967295 32) _)) _));
      vm_compute; [reflexivity|discriminate].
Defined.

(** C3 against the code: 255.255.255.255/32 is a valid network, and the
    calculator raises instead of returning its address plus one. *)
Lemma gateway_of_last_address_raises :
  Ipaddress.IPv4Network_of_str (u "255.255.255.255/32") false
  = Returned (Ipaddress.Build_IPv4Network 4294967295 4294967295 32)
  /\ Utils.calculateGatewayIp (u "255.255.255.255/32")
     = Raised (Exn ValueError (InvalidSubnetFormat (IntTooLarge 4294967296))).
Proof. split; vm_compute; reflexivity. Qed.

Lemma gateway_rejects_unparseable_witness :
  Utils.calculateGatewayIp (u "10.0.0.0/33")
  = Raised (Exn ValueError (InvalidSubnetFormat (NotAValidNetmask (u "33"))))
  /\ Utils.calculateGatewayIp (u "not-a-subnet")
     = Raised (Exn ValueError
                   (InvalidSubnetFormat
                      (ExpectedFourOctets (u "not-a-subnet")))).
Proof.
  split.
  - refine (@gateway_rejects_unparseable (u "10.0.0.0/33")
              (Exn NetmaskValueError (NotAValidNetmask (u "33"))) _).
    vm_compute. reflexivity.
  - refine (@gateway_rejects_unparseable (u "not-a-subnet")
              (Exn AddressValueError (ExpectedFourOctets (u "not-a-subnet")))
              _).
    vm_compute. reflexivity.
Defined.

Lemma gateway_of_bare_address_witness :
  Utils.calculateGatewayIp (u "192.168.1.5") = Returned (u "192.168.1.6").
Proof.
  refine (proj1 (proj2 (@gateway_of_bare_address (u "192.168.1.5")
                          3232235781 _ _)) _);
    vm_compute; [reflexivity|reflexivity|discriminate].
Defined.

(** C10 against the code: the bare address 255.255.255.255 is parsed, as a
    /32, and the calculator raises instead of returning an address. *)
Lemma gateway_of_bare_last_address_raises :
  Ipaddress.IPv4Network_of_str (u "255.255.255.255") false
  = Returned (Ipaddress.Build_IPv4Network 4294967295 4294967295 32)
  /\ Utils.calculateGatewayIp (u "255.255.255.255")
     = Raised (Exn ValueError (InvalidSubnetFormat (IntTooLarge 4294967296))).
Proof. split; vm_compute; reflexivity. Qed.

Lemma extract_binds_first_three_witness :
  fst (Script.extractRelevantContent (completion sample_reply) (fresh []))
  = Returned (Some (artifact_set (u "FROM ubuntu:14.04")
                                 (u "[supervisord]" ++ [NEWLINE]
                                  ++ u "nodaemon=true")
                                 (u "#!/bin/bash")))
  /\ exists c,
       surrogate c = true /\ In c surrogate_reply
       /\ fst (Script.extractRelevantContent (completion surrogate_reply)
                 (fresh []))
          = Raised (Exn UnicodeEncodeError (SurrogatesNotAllowed c)).
Proof.
  split.
  - refine (proj2
              (proj1
                 (@extract_binds_first_three scripted (fresh [])
                    (completion sample_reply)
                    (u "Here you go:") (u "python") sample_dockerfile
                    [NEWLINE] [] sample_supervisord
                    [NEWLINE] (u "text") sample_setup
                    (u " Good luck!")
                    (completion_carries _)
                    eq_refl eq_refl eq_refl eq_refl eq_refl eq_refl
                    eq_refl eq_refl eq_refl) _) _ _ _);
      vm_compute; first [reflexivity | discriminate].
  - refine (proj2
              (@extract_binds_first_three scripted (fresh [])
                 (completion surrogate_reply)
                 [55296%N] (u "Dockerfile") sample_dockerfile
                 [NEWLINE] (u "ini") sample_supervisord
                 [NEWLINE] (u "bash") sample_setup []
                 (completion_carries _)
                 eq_refl eq_refl eq_refl eq_refl eq_refl eq_refl
                 eq_refl eq_refl eq_refl) _).
    vm_compute. reflexivity.
Defined.

(** C1 against the code. A reply whose first sentence quotes the fence,
    followed by three blocks with the labels asked for and bodies that are
    not blank: the regular expression pairs the fences from the left, the
    three matches are empty, and nothing is returned. And a reply of three
    such blocks after a lone surrogate: the extractor raises at its debug
    print. *)
Lemma extract_misses_three_blocks :
  Re.findall stray_fence_reply = [[]; []; []]
  /\ fst (Script.extractRelevantContent (completion stray_fence_reply)
            (fresh []))
     = Returned None
  /\ strip sample_dockerfile <> [] /\ strip sample_supervisord <> []
  /\ strip sample_setup <> []
  /\ Script.extractRelevantContent (completion surrogate_reply) (fresh [])
     = (Raised (Exn UnicodeEncodeError (SurrogatesNotAllowed 55296%N)),
        fresh []).
Proof.
  split; [vm_compute; reflexivity|].
  split; [vm_compute; reflexivity|].
  split; [vm_compute; discriminate|].
  split; [vm_compute; discriminate|].
  split; [vm_compute; discriminate|].
  vm_compute; reflexivity.
Qed.

Lemma extract_incomplete_is_nothing_witness :
  fst (Script.extractRelevantContent (completion short_reply) (fresh []))
  = Returned None
  /\ fst (Script.extractRelevantContent (completion blank_reply) (fresh []))
     = Returned None
  /\ exists c,
       surrogate c = true /\ In c unprintable_reply
       /\ fst (Script.extractRelevantContent (completion unprintable_reply)
                 (fresh []))
          = Raised (Exn UnicodeEncodeError (SurrogatesNotAllowed c)).
Proof.
  split; [|split].
  - refine (proj1 (proj2
              (proj1 (@extract_incomplete_is_nothing scripted (fresh [])
                        (completion short_reply)) short_reply
                     (completion_carries _) _)) _).
    + left. vm_compute. lia.
    + vm_compute. reflexivity.
  - refine (proj1 (proj2
              (proj1 (@extract_incomplete_is_nothing scripted (fresh [])
                        (completion blank_reply)) blank_reply
                     (completion_carries _) _)) _).
    + right. exists 1%nat. split; [lia|reflexivity].
    + vm_compute. reflexivity.
  - refine (proj2 (proj2
              (proj1 (@extract_incomplete_is_nothing scripted (fresh [])
                        (completion unprintable_reply)) unprintable_reply
                     (completion_carries _) _)) _).
    + left. vm_compute. lia.
    + vm_compute. reflexivity.
Defined.

(** C2 against the code: a reply without any block and with a lone
    surrogate does not end in the condition for incomplete content; the
    extractor raises, before it has looked for blocks and without having
    printed anything. *)
Lemma extract_of_unprintable_raises :
  Re.findall unprintable_reply = []
  /\ Script.extractRelevantContent (completion unprintable_reply) (fresh [])
     = (Raised (Exn UnicodeEncodeError (SurrogatesNotAllowed 55296%N)),
        fresh []).
Proof. split; vm_compute; reflexivity. Qed.

Lemma extract_needs_choice_and_content_witness :
  fst (Script.extractRelevantContent
         (PDict [(u "choices", PList [])]) (fresh []))
  = Returned None
  /\ fst (Script.extractRelevantContent (completion []) (fresh []))
     = Returned None
  /\ exists t, carries (completion sample_reply) t /\ t <> [].
Proof.
  split; [|split].
  - apply (proj1 (@extract_needs_choice_and_content scripted (fresh [])
                    (PDict [(u "choices", PList [])]))
                 [(u "choices", PList [])] eq_refl).
    right. reflexivity.
  - apply (proj1 (proj2 (@extract_needs_choice_and_content scripted (fresh [])
                           (completion [])))
                 _ _ _ eq_refl eq_refl).
    right. exists [(u "content", PStr [])]. split; [reflexivity|].
    right. reflexivity.
  - apply (proj2 (proj2 (@extract_needs_choice_and_content scripted (fresh [])
                           (completion sample_reply)))
                 (artifact_set (u "FROM ubuntu:14.04")
                               (u "[supervisord]" ++ [NEWLINE]
                                ++ u "nodaemon=true")
                               (u "#!/bin/bash"))).
    vm_compute. reflexivity.
Defined.

Lemma extract_twice_identical_witness :
  exists w2,
    Script.extractRelevantContent (completion sample_reply)
      (snd (Script.extractRelevantContent (completion sample_reply) (fresh [])))
    = (Returned (Some (artifact_set (u "FROM ubuntu:14.04")
                                    (u "[supervisord]" ++ [NEWLINE]
                                     ++ u "nodaemon=true")
                                    (u "#!/bin/bash"))), w2).
Proof.
  apply (@extract_twice_identical scripted (fresh [])).
  vm_compute. reflexivity.
Defined.


(** ** Further runs *)

(** Without the executable the status is "unknown" and the existence
    query answers the empty string. *)
Example status_without_docker :
  fst (Utils.checkContainerStatus Script.CONTAINER_NAME
         (World missing tt [] [] []))
  = Returned (u "unknown")
  /\ fst (Utils.checkContainerExists Script.CONTAINER_NAME
            (World missing tt [] [] []))
     = Returned [].
Proof. split; reflexivity. Qed.

(** C5 against the code: a status query that runs and fails, with exit
    code 1 and nothing or only a newline on its output, as when the engine
    cannot be reached, is answered "stopped" and not "unknown". *)
Lemma status_of_failed_query_is_stopped :
  fst (Utils.checkContainerStatus Script.CONTAINER_NAME
         (fresh [Completed 1 []]))
  = Returned (u "stopped")
  /\ fst (Utils.checkContainerStatus Script.CONTAINER_NAME
            (fresh [Completed 1 [NEWLINE]]))
     = Returned (u "stopped")
  /\ fst (exec scripted [Completed 1 []] (status_cmd Script.CONTAINER_NAME))
     = Returned (Completed 1 []).
Proof. split; [|split]; reflexivity. Qed.

(** The return code of the query is not looked at: a process that ends
    with code 1 and prints nothing gives "stopped". *)
Example status_goes_by_output :
  fst (Utils.checkContainerStatus Script.CONTAINER_NAME
         (fresh [Completed 1 []]))
  = Returned (u "stopped")
  /\ fst (Utils.checkContainerStatus Script.CONTAINER_NAME
            (fresh [Completed 0 (u "Up 2 minutes" ++ [NEWLINE])]))
     = Returned (u "running").
Proof. split; reflexivity. Qed.

(** Without the executable [runDockerContainer] itself raises: the failed
    existence query is absorbed, the network check is not. *)
Example run_without_docker :
  fst (Script.runDockerContainer (u "192.168.200.10") (u "honeynet")
         (World missing tt [] [] []))
  = Raised (Exn FileNotFoundError
                (Other (u "No such file or directory: 'docker'")))
  /\ calls (snd (Script.runDockerContainer (u "192.168.200.10")
                   (u "honeynet") (World missing tt [] [] [])))
     = [exists_cmd Script.CONTAINER_NAME; inspect_cmd (u "honeynet")].
Proof. split; vm_compute; reflexivity. Qed.

(** Labels are lines: a label may itself hold backticks, and a fence with
    nothing but its label on the line opens no block before the next
    newline. *)
Example findall_reads_lines :
  Re.findall (u "```a``` ```b" ++ [NEWLINE] ++ u "X```") = [u "X"].
Proof. vm_compute. reflexivity. Qed.

(** ** More on the extractor *)

Section ExtractorMore.
Import Script.
Variable G : Engine.
Local Opaque u.

Lemma carries_unique r t t' : carries r t -> carries r t' -> t = t'.
Proof.
  intros [d f rest m x Hc Hm Ht] H. inversion H as [d' f' rest' m' x' Hc' Hm' Ht'].
  subst. rewrite Hc in Hc'. injection Hc' as <- <-.
  rewrite Hm in Hm'. injection Hm' as <-. congruence.
Qed.

(** A successful extraction, taken apart. *)
Lemma extract_some_inv r t (w : world G) a :
  fst (extractRelevantContent r w) = Returned (Some a) ->
  carries r t ->
  exists b0 b1 b2 bs,
    Re.findall t = b0 :: b1 :: b2 :: bs
    /\ a = artifact_set (strip b0) (strip b1) (strip b2)
    /\ (strip b0 <> [] /\ strip b1 <> [] /\ strip b2 <> [])
    /\ (is_body b0 /\ is_body b1 /\ is_body b2)
    /\ encodable t = true.
Proof.
  intros Ha Hr. rewrite (extract_carries w Hr) in Ha.
  destruct t as [|c t]; [discriminate|].
  destruct (find surrogate (c :: t)) eqn:Hf; [discriminate|].
  apply find_surrogate in Hf. apply Returned_inj in Ha.
  pose proof (findall_sound (c :: t)) as Hs.
  destruct (Re.findall (c :: t)) as [|b0 [|b1 [|b2 bs]]]; try discriminate.
  inversion Hs as [|? ? (? & ? & ? & _ & B0 & _) Hs1]; subst.
  inversion Hs1 as [|? ? (? & ? & ? & _ & B1 & _) Hs2]; subst.
  inversion Hs2 as [|? ? (? & ? & ? & _ & B2 & _) _]; subst.
  exists b0, b1, b2, bs. unfold bind_first_three in Ha.
  destruct (strip b0) eqn:E0; [discriminate|].
  destruct (strip b1) eqn:E1; [discriminate|].
  destruct (strip b2) eqn:E2; [discriminate|].
  injection Ha as <-. repeat split; solve [discriminate | assumption].
Qed.

(** X1. The artifacts are never invented: each is the trimmed body of a
    fenced block that stands in the reply. *)
Theorem artifacts_come_from_blocks r t (w : world G) a :
  fst (extractRelevantContent r w) = Returned (Some a) ->
  carries r t ->
  exists b0 b1 b2,
    a = artifact_set (strip b0) (strip b1) (strip b2)
    /\ Forall (fun b => exists p l q,
                 is_label l /\ is_body b /\ t = p ++ block l b ++ q)
              [b0; b1; b2].
Proof.
  intros Ha Hr.
  destruct (extract_some_inv _ Ha Hr) as (b0 & b1 & b2 & bs & Hf & -> & _).
  exists b0, b1, b2. split; [reflexivity|].
  pose proof (findall_sound t) as Hs. rewrite Hf in Hs.
  inversion Hs as [|? ? H0 Hs1]; subst.
  inversion Hs1 as [|? ? H1 Hs2]; subst.
  inversion Hs2 as [|? ? H2 _]; subst.
  repeat constructor; assumption.
Qed.

(** X2. Every artifact returned is non-empty, neither begins nor ends
    with white space, and holds no three backticks in a row. *)
Theorem artifacts_are_trimmed r (w : world G) a :
  fst (extractRelevantContent r w) = Returned (Some a) ->
  Forall (fun kv => trimmed (snd kv) /\ Re.has_fence (snd kv) = false) a.
Proof.
  intros Ha. destruct (extract_some_carries _ _ Ha) as (t & Hr & _).
  destruct (extract_some_inv _ Ha Hr)
    as (b0 & b1 & b2 & bs & _ & -> & (N0 & N1 & N2) & (B0 & B1 & B2) & _).
  unfold artifact_set.
  repeat (apply Forall_cons;
          [cbn [snd]; split;
           [apply strip_trimmed; assumption
           |apply strip_no_fence; assumption]|]).
  apply Forall_nil.
Qed.

(** X3. The artifacts fit in the reply: together they are at least 21
    characters shorter than it, the fences and the label lines. *)
Theorem artifacts_fit_in_reply r t (w : world G) a :
  fst (extractRelevantContent r w) = Returned (Some a) ->
  carries r t ->
  (list_sum (map (fun kv => List.length (snd kv)) a) + 21
   <= List.length t)%nat.
Proof.
  intros Ha Hr.
  destruct (extract_some_inv _ Ha Hr) as (b0 & b1 & b2 & bs & Hf & -> & _).
  pose proof (findall_lengths t) as Hl. rewrite Hf in Hl.
  pose proof (strip_length b0). pose proof (strip_length b1).
  pose proof (strip_length b2).
  unfold artifact_set. cbn [map snd] in *. unfold list_sum in *.
  cbn [fold_right] in *.
  assert (0 <= fold_right Init.Nat.add 0
                 (map (fun b => 7 + List.length b) bs))%nat by lia.
  lia.
Qed.

Lemma only_prints_ret A (a : A) : only_prints (@ret G A a).
Proof. intros w. cbn. repeat split. exists []. now rewrite app_nil_r. Qed.

Lemma only_prints_lift A (o : outcome A) : only_prints (@lift G A o).
Proof. intros w. cbn. repeat split. exists []. now rewrite app_nil_r. Qed.

Lemma only_prints_print l : only_prints (@print G l).
Proof.
  intros w. unfold print. destruct (find surrogate (line_text l)); cbn.
  - repeat split. exists []. now rewrite app_nil_r.
  - repeat split. now exists [l].
Qed.

Lemma only_prints_bind A B (m : M G A) (k : A -> M G B) :
  only_prints m -> (forall a, only_prints (k a)) -> only_prints (bind m k).
Proof.
  intros Hm Hk w. unfold bind. specialize (Hm w).
  destruct (m w) as [[a|e] w1]; cbn [snd] in *; [|exact Hm].
  destruct Hm as (He & Hc & Hl & more & Hp).
  destruct (Hk a w1) as (He' & Hc' & Hl' & more' & Hp').
  repeat split; try congruence.
  exists (more ++ more'). rewrite Hp', Hp. now rewrite app_assoc.
Qed.

Lemma only_prints_report d : only_prints (@report G d).
Proof.
  induction d as [|[name content] d IH]; cbn [report].
  - apply only_prints_ret.
  - apply only_prints_bind; [|intros _; exact IH].
    destruct (truthy (PStr content)); apply only_prints_print.
Qed.

Ltac only_prints_step :=
  first
    [ apply only_prints_ret | apply only_prints_lift | apply only_prints_print
    | apply only_prints_report
    | apply only_prints_bind; [|intros ?]
    | match goal with
      | |- only_prints (if ?b then _ else _) => destruct b
      | |- only_prints (match ?x with _ => _ end) => destruct x
      end ].

(** X4. The extractor starts no process and writes no log record; all it
    does to the world is print. *)
Theorem extract_only_prints r : only_prints (@extractRelevantContent G r).
Proof. unfold extractRelevantContent. repeat only_prints_step. Qed.

Lemma validatePrompt_run (w : world G) prompt :
  Cli.validatePrompt prompt w =
  if blank prompt
  then (Returned false,
        World G (engine w) (calls w)
              (printed w
               ++ [[Text (u "Prompt cannot be empty. Please try again.")]])
              (logged w))
  else (Returned true, w).
Proof.
  unfold Cli.validatePrompt, blank.
  destruct (forallb isspace prompt) eqn:Hb.
  - apply strip_nil_iff in Hb. rewrite Hb. cbn [truthy negb].
    unfold bind. prints. reflexivity.
  - destruct (strip prompt) eqn:Hs; [|reflexivity].
    apply strip_nil_iff in Hs. congruence.
Qed.

(** X5. The prompt check passes exactly the prompts with a character
    that is not white space, and then does nothing; for any other prompt
    it returns False and prints its complaint, once. It never raises. *)
Theorem validatePrompt_spec (w : world G) prompt :
  ((exists c, In c prompt /\ isspace c = false) ->
   Cli.validatePrompt prompt w = (Returned true, w))
  /\ ((forall c, In c prompt -> isspace c = true) ->
      Cli.validatePrompt prompt w
      = (Returned false,
         World G (engine w) (calls w)
               (printed w
                ++ [[Text (u "Prompt cannot be empty. Please try again.")]])
               (logged w))).
Proof.
  unfold Cli.validatePrompt. split.
  - intros (c & Hin & Hc). destruct (strip prompt) eqn:Hs; [|reflexivity].
    apply strip_nil_iff in Hs. rewrite forallb_forall in Hs.
    rewrite (Hs c Hin) in Hc. discriminate.
  - intros Hall. apply forallb_forall in Hall.
    apply strip_nil_iff in Hall. rewrite Hall. cbn [truthy negb].
    unfold bind. prints. reflexivity.
Qed.

End ExtractorMore.

(** ** More on the engine wrappers *)

Section EngineMore.
Import Utils Script Cli.
Variable G : Engine.
Local Opaque u.

Lemma plain_run (w : world G) cmd :
  subprocess_run cmd false w =
  (fst (exec G (engine w) cmd),
   World G (snd (exec G (engine w) cmd)) (calls w ++ [cmd])
         (printed w) (logged w)).
Proof.
  rewrite subprocess_run_spec.
  destruct (fst (exec G (engine w) cmd)); reflexivity.
Qed.

(** X6. [stopContainer] and [removeContainer] go by the existence query
    alone. Without an identifier they start nothing and print their
    warning. With one they issue the one command, and once it has run
    they print their success line whatever its return code was. *)
Theorem stop_and_remove_report (w : world G) p :
  fst (exec G (engine w) (exists_cmd CONTAINER_NAME)) = Returned p ->
  let g := snd (exec G (engine w) (exists_cmd CONTAINER_NAME)) in
  let id := strip (stdout p) in
  (id = [] ->
   stopContainer w
   = (Returned tt,
      World G g (calls w ++ [exists_cmd CONTAINER_NAME])
            (printed w ++ [[Text (u "[!] Container not running.")]])
            (logged w))
   /\ removeContainer w
      = (Returned tt,
         World G g (calls w ++ [exists_cmd CONTAINER_NAME])
               (printed w ++ [[Text (u "[!] Container not found.")]])
               (logged w)))
  /\ (id <> [] ->
      (forall q,
         fst (exec G g (stop_cmd id)) = Returned q ->
         stopContainer w
         = (Returned tt,
            World G (snd (exec G g (stop_cmd id)))
                  (calls w ++ [exists_cmd CONTAINER_NAME; stop_cmd id])
                  (printed w ++ [[Text (u "[+] Container stopped.")]])
                  (logged w)))
      /\ (forall q,
            fst (exec G g (rm_cmd id)) = Returned q ->
            removeContainer w
            = (Returned tt,
               World G (snd (exec G g (rm_cmd id)))
                     (calls w ++ [exists_cmd CONTAINER_NAME; rm_cmd id])
                     (printed w ++ [[Text (u "[+] Container removed.")]])
                     (logged w)))).
Proof.
  intros Hp g id. subst g id.
  unfold stopContainer, removeContainer, bind.
  rewrite (checkContainerExists_ok _ _ Hp).
  fold (stop_cmd (strip (stdout p))). fold (rm_cmd (strip (stdout p))).
  split.
  - intros ->. split; reflexivity.
  - intros Hne.
    destruct (strip (stdout p)) as [|c id] eqn:Hid; [congruence|].
    cbn [truthy]. split; intros q Hq; rewrite plain_run; cbn [engine];
      rewrite Hq; prints; cbn [calls printed logged engine];
      do 2 f_equal; symmetry; apply (app_assoc (calls w) [_] [_]).
Qed.

(** X7. A build or a network creation that fails is logged, not raised:
    once the process has run, the function returns, having issued that
    one command and printed nothing. The INFO lines make no record, the
    root logger being at WARNING: after return code 0 the log is as it
    was, and after any other code it has gained one ERROR record, which
    carries the failure. *)
Theorem build_and_create_log (w : world G) :
  (forall dir q,
     fst (exec G (engine w) (build_cmd dir)) = Returned q ->
     buildDockerImage dir w
     = (Returned tt,
        World G (snd (exec G (engine w) (build_cmd dir)))
              (calls w ++ [build_cmd dir]) (printed w)
              (logged w
               ++ if (returncode q =? 0)%Z
                  then []
                  else [(ERROR,
                         [Text (u "Error building Docker image: ");
                          Error (Exn CalledProcessError
                                     (NonZeroExit (returncode q)
                                                  (build_cmd dir)))])])))
  /\ (forall name subnet gateway q,
        fst (exec G (engine w) (create_cmd name subnet gateway))
        = Returned q ->
        createHostOnlyNetwork name subnet gateway w
        = (Returned tt,
           World G (snd (exec G (engine w) (create_cmd name subnet gateway)))
                 (calls w ++ [create_cmd name subnet gateway]) (printed w)
                 (logged w
                  ++ if (returncode q =? 0)%Z
                     then []
                     else [(ERROR,
                            [Text (u "Error creating network: ");
                             Error (Exn CalledProcessError
                                        (NonZeroExit
                                           (returncode q)
                                           (create_cmd name subnet
                                                       gateway)))])]))).
Proof.
  split.
  - intros dir q Hq.
    unfold buildDockerImage, try_except, bind, logging, enabled.
    fold (build_cmd dir). cbv beta iota.
    rewrite (@checked_run _ _ _ q) by exact Hq.
    destruct (returncode q =? 0)%Z; cbn [cls subclass engine calls printed
                                          logged];
      [now rewrite app_nil_r|reflexivity].
  - intros name subnet gateway q Hq.
    unfold createHostOnlyNetwork, try_except, bind, logging, enabled.
    fold (create_cmd name subnet gateway).
    rewrite (@checked_run _ _ _ q) by exact Hq.
    destruct (returncode q =? 0)%Z; cbn [cls subclass engine calls printed
                                          logged];
      [now rewrite app_nil_r|reflexivity].
Qed.

(** X8. The existence query of GUI.py and the one of utils.py are the
    same call and agree, world and all, whenever the process starts;
    when it does not, the one of GUI.py raises what the other absorbs
    into the empty string. *)
Theorem gui_query_agrees (w : world G) name :
  (forall p,
     fst (exec G (engine w) (exists_cmd name)) = Returned p ->
     Gui.check_container_exists name w = checkContainerExists name w)
  /\ (forall e,
        fst (exec G (engine w) (exists_cmd name)) = Raised e ->
        fst (Gui.check_container_exists name w) = Raised e
        /\ fst (checkContainerExists name w) = Returned []
        /\ calls (snd (Gui.check_container_exists name w))
           = calls (snd (checkContainerExists name w))).
Proof.
  split.
  - intros p Hp. rewrite (checkContainerExists_ok _ _ Hp).
    unfold Gui.check_container_exists, bind. fold (exists_cmd name).
    rewrite plain_run, Hp. reflexivity.
  - intros e He. unfold Gui.check_container_exists, checkContainerExists,
      try_except, bind.
    fold (exists_cmd name). rewrite !plain_run, He.
    rewrite subclass_Exception. cbn. auto.
Qed.

Lemma docker_only_ret A (a : A) : docker_only (@ret G A a).
Proof. intros w. exists []. cbn. now rewrite app_nil_r. Qed.

Lemma docker_only_print l : docker_only (@print G l).
Proof.
  intros w. exists []. unfold print.
  destruct (find surrogate (line_text l)); cbn; now rewrite app_nil_r.
Qed.

Lemma docker_only_logging lv l : docker_only (@logging G lv l).
Proof.
  intros w. exists []. unfold logging.
  destruct (enabled lv); cbn; now rewrite app_nil_r.
Qed.

Lemma docker_only_run args check :
  docker_only (@subprocess_run G (u "docker" :: args) check).
Proof.
  intros w. exists [u "docker" :: args]. rewrite subprocess_run_spec.
  cbn [snd calls]. split; [reflexivity|]. now constructor.
Qed.

Lemma docker_only_bind A B (m : M G A) (k : A -> M G B) :
  docker_only m -> (forall a, docker_only (k a)) -> docker_only (bind m k).
Proof.
  intros Hm Hk w. unfold bind. destruct (Hm w) as (more & Hc & Hd).
  destruct (m w) as [[a|e] w1]; cbn [snd] in *; [|now exists more].
  destruct (Hk a w1) as (more' & Hc' & Hd').
  exists (more ++ more'). split.
  - now rewrite Hc', Hc, app_assoc.
  - now apply Forall_app.
Qed.

Lemma docker_only_try A (m : M G A) c h :
  docker_only m -> (forall e, docker_only (h e)) ->
  docker_only (try_except m c h).
Proof.
  intros Hm Hh w. unfold try_except. destruct (Hm w) as (more & Hc & Hd).
  destruct (m w) as [[a|e] w1]; cbn [snd] in *; [now exists more|].
  destruct (subclass (cls e) c); [|now exists more].
  destruct (Hh e w1) as (more' & Hc' & Hd').
  exists (more ++ more'). split.
  - now rewrite Hc', Hc, app_assoc.
  - now apply Forall_app.
Qed.

Ltac docker_only_step :=
  first
    [ apply docker_only_ret | apply docker_only_print
    | apply docker_only_logging | apply docker_only_run
    | apply docker_only_bind; [|intros ?]
    | apply docker_only_try; [|intros ?]
    | match goal with
      | |- docker_only (if ?b then _ else _) => destruct b
      end ].

Lemma docker_only_exists name : docker_only (@checkContainerExists G name).
Proof. unfold checkContainerExists. repeat docker_only_step. Qed.

Lemma docker_only_create name subnet gateway :
  docker_only (@createHostOnlyNetwork G name subnet gateway).
Proof. unfold createHostOnlyNetwork. repeat docker_only_step. Qed.

(** X9. Whatever the engine answers, the only program these functions
    start is [docker]: the address, the network name, the directory and
    the identifier read from the engine reach it as arguments only. *)
Theorem wrappers_run_docker_only :
  (forall ip net, docker_only (@runDockerContainer G ip net))
  /\ (forall name subnet gateway,
        docker_only (@createHostOnlyNetwork G name subnet gateway))
  /\ (forall dir, docker_only (@buildDockerImage G dir))
  /\ docker_only (@stopContainer G)
  /\ docker_only (@removeContainer G)
  /\ docker_only (@removeImage G)
  /\ docker_only (@listNetworks G)
  /\ (forall name, docker_only (@checkContainerStatus G name))
  /\ (forall name, docker_only (@checkContainerExists G name)).
Proof.
  pose proof docker_only_exists. pose proof docker_only_create.
  repeat split; intros;
    unfold runDockerContainer, buildDockerImage, stopContainer,
      removeContainer, removeImage, listNetworks, checkContainerStatus;
    repeat first [docker_only_step | solve [auto]].
Qed.

End EngineMore.

(** ** Reading the prompt *)

Section ConsoleFacts.
Import Ipaddress Console.

Lemma read_until_END_stops typed e rest acc :
  Forall (fun l => ends_input l = false) typed ->
  ends_input e = true ->
  read_until_END (typed ++ e :: rest) acc = (Got (acc ++ typed), rest).
Proof.
  unfold ends_input. intros Ht He. revert acc.
  induction Ht as [|l typed Hl _ IH]; intros acc; cbn [app read_until_END].
  - now rewrite He, app_nil_r.
  - rewrite Hl, IH. now rewrite <- app_assoc.
Qed.

Lemma read_until_END_eof pending acc :
  Forall (fun l => ends_input l = false) pending ->
  read_until_END pending acc = (EOFError, []).
Proof.
  unfold ends_input. intros Hp. revert acc.
  induction Hp as [|l pending Hl _ IH]; intros acc; cbn [read_until_END].
  - reflexivity.
  - now rewrite Hl.
Qed.

Lemma join_cons sep p q ps :
  join sep (p :: q :: ps) = p ++ sep :: join sep (q :: ps).
Proof. reflexivity. Qed.

Lemma split_cons_eq sep c s :
  split sep (c :: s) =
  if (c =? sep)%N then [] :: split sep s
  else match split sep s with
       | p :: ps => (c :: p) :: ps
       | [] => [[c]]
       end.
Proof. reflexivity. Qed.

(** Joining what was split gives the text back. *)
Lemma join_split sep s : join sep (split sep s) = s.
Proof.
  induction s as [|c s IH]; [reflexivity|]. rewrite split_cons_eq.
  pose proof (split_not_nil sep s) as Hne.
  destruct (N.eqb_spec c sep) as [->|Hc].
  - destruct (split sep s) as [|p ps]; [congruence|].
    rewrite join_cons. cbn [app]. now rewrite IH.
  - destruct (split sep s) as [|p ps]; [congruence|].
    destruct ps as [|q ps]; cbn [join] in *; [now rewrite IH|].
    rewrite <- IH. reflexivity.
Qed.

Lemma join_app sep a b :
  a <> [] -> b <> [] -> join sep (a ++ b) = join sep a ++ sep :: join sep b.
Proof.
  intros Ha Hb. induction a as [|p a IH]; [congruence|].
  destruct a as [|q a].
  - destruct b as [|r b]; [congruence|]. reflexivity.
  - cbn [app] in *. rewrite !join_cons, IH by discriminate.
    now rewrite <- app_assoc.
Qed.

(** Splitting what was joined gives the lines back, when no line holds
    the separator. *)
Lemma split_join sep ls :
  ls <> [] ->
  Forall (fun l => existsb (fun c => (c =? sep)%N) l = false) ls ->
  split sep (join sep ls) = ls.
Proof.
  intros Hne Hls. induction Hls as [|l ls Hl Hls IH]; [congruence|].
  destruct ls as [|q ls].
  - cbn [join]. now apply split_no_sep.
  - rewrite join_cons, split_app_sep by exact Hl. f_equal. apply IH.
    discriminate.
Qed.

Lemma blank_not_end l : blank l = true -> ends_input l = false.
Proof.
  unfold blank, ends_input. intros H. apply strip_nil_iff in H.
  now rewrite H.
Qed.

Lemma blank_join ls :
  Forall (fun l => blank l = true) ls -> blank (join NEWLINE ls) = true.
Proof.
  unfold blank. intros H. induction H as [|l ls Hl _ IH]; [reflexivity|].
  destruct ls as [|q ls]; [exact Hl|].
  rewrite join_cons, forallb_app, Hl. cbn [forallb andb].
  now rewrite IH.
Qed.

Lemma getMultilineInput_run c typed e rest :
  stdin c = typed ++ e :: rest ->
  Forall (fun l => ends_input l = false) typed ->
  ends_input e = true ->
  getMultilineInput c
  = (Got (join NEWLINE typed), Console rest (screen c ++ [PROMPT_BANNER])).
Proof.
  intros Hin Ht He. unfold getMultilineInput. rewrite Hin.
  now rewrite (@read_until_END_stops typed e rest [] Ht He).
Qed.

(** X10. [getMultilineInput] returns the lines typed before the first
    line that reads END (in any case, white space around it ignored),
    joined by newlines; the END line is consumed, later lines are left
    unread, and only the banner is printed. The lines can be got back
    from the prompt by splitting it at the newlines. *)
Theorem getMultilineInput_reads_to_END c typed e rest :
  stdin c = typed ++ e :: rest ->
  Forall (fun l => ends_input l = false) typed ->
  ends_input e = true ->
  getMultilineInput c
  = (Got (join NEWLINE typed), Console rest (screen c ++ [PROMPT_BANNER]))
  /\ (typed <> [] ->
      Forall (fun l => existsb (fun x => (x =? NEWLINE)%N) l = false) typed ->
      split NEWLINE (join NEWLINE typed) = typed).
Proof.
  intros Hin Ht He. split.
  - apply (@getMultilineInput_run c typed e rest); assumption.
  - apply split_join.
Qed.

(** X11. Without a line that reads END both readers run into the end of
    the input: they raise [EOFError], all lines consumed and nothing
    returned. *)
Theorem readers_need_END c existing :
  Forall (fun l => ends_input l = false) (stdin c) ->
  getMultilineInput c = (EOFError, Console [] (screen c ++ [PROMPT_BANNER]))
  /\ getMultilineInputForSystemMessage existing c
     = (EOFError, Console [] (screen c ++ [SYSTEM_BANNER])).
Proof.
  intros H. unfold getMultilineInput, getMultilineInputForSystemMessage.
  cbv zeta. now rewrite !(read_until_END_eof _ H).
Qed.

(** X12. The reader of the system message starts from the lines of the
    message it is given: END typed at once returns that message
    unchanged, and lines typed before END are appended to it after a
    newline, never put in its place. *)
Theorem system_message_only_grows c existing typed e rest :
  stdin c = typed ++ e :: rest ->
  Forall (fun l => ends_input l = false) typed ->
  ends_input e = true ->
  getMultilineInputForSystemMessage existing c
  = (Got match typed with
         | [] => existing
         | _ :: _ => existing ++ NEWLINE :: join NEWLINE typed
         end,
     Console rest (screen c ++ [SYSTEM_BANNER])).
Proof.
  intros Hin Ht He. unfold getMultilineInputForSystemMessage. cbv zeta.
  rewrite Hin, (@read_until_END_stops typed e rest _ Ht He). do 2 f_equal.
  destruct typed as [|l typed].
  - now rewrite app_nil_r, join_split.
  - rewrite join_app, join_split;
      [reflexivity | apply split_not_nil | discriminate].
Qed.

(** X13. A prompt typed as blank lines only, or as no line at all, is
    read without complaint and then refused by the prompt check. *)
Theorem blank_prompt_is_refused c typed e rest G (w : world G) :
  stdin c = typed ++ e :: rest ->
  Forall (fun l => blank l = true) typed ->
  ends_input e = true ->
  exists prompt c',
    getMultilineInput c = (Got prompt, c')
    /\ fst (Cli.validatePrompt prompt w) = Returned false.
Proof.
  intros Hin Hb He.
  assert (Ht : Forall (fun l => ends_input l = false) typed).
  { eapply Forall_impl; [|exact Hb]. apply blank_not_end. }
  eexists. eexists.
  split; [exact (@getMultilineInput_run c typed e rest Hin Ht He)|].
  rewrite validatePrompt_run, blank_join by exact Hb. reflexivity.
Qed.

End ConsoleFacts.

(** ** More on the gateway calculator *)

Section GatewayMore.
Import Ipaddress Utils.
Local Open Scope Z_scope.
Local Opaque u.

(** X14. The address the calculator returns reads back as the network
    address plus one. It lies in the subnet (the netmask takes it to the
    network address) for every prefix length up to 31, and outside it
    for a /32. *)
Theorem gateway_in_subnet s net g :
  IPv4Network_of_str s false = Returned net ->
  calculateGatewayIp s = Returned g ->
  exists gw,
    _ip_int_from_string g = Returned gw
    /\ gw = network_address net + 1
    /\ (_prefixlen net <= 31 ->
        Z.land gw (netmask net) = network_address net)
    /\ (_prefixlen net = 32 ->
        Z.land gw (netmask net) <> network_address net).
Proof.
  intros Hnet Hg.
  destruct (IPv4Network_inv s Hnet) as (addr & m & ip & _ & Ha & Hm & Hna).
  pose proof (IPv4Address_of_str_range _ Ha) as Hip.
  destruct (make_netmask_ok m Hm) as [Hp Hmask].
  assert (Hbase : network_address net
                  = ip / 2 ^ (32 - _prefixlen net)
                    * 2 ^ (32 - _prefixlen net)).
  { rewrite Hna, Hmask. now apply base_formula. }
  assert (Hrange : 0 <= network_address net <= ip).
  { rewrite Hna, Hmask. now apply base_range. }
  destruct (gateway_value s Hnet) as [Hok Hbad]; [lia|].
  destruct (Z.eq_dec (network_address net) _ALL_ONES) as [Hall|Hne].
  { rewrite (Hbad Hall) in Hg. discriminate. }
  rewrite (Hok Hne) in Hg. apply Returned_inj in Hg as <-.
  assert (Hgw : 0 <= network_address net + 1 <= _ALL_ONES) by lia.
  exists (network_address net + 1).
  split; [now apply string_from_ip_int_roundtrip|].
  split; [reflexivity|].
  rewrite Hmask, base_formula by assumption.
  set (k := 32 - _prefixlen net) in *.
  set (q := ip / 2 ^ k) in *.
  assert (Hpow : 0 < 2 ^ k) by (apply Z.pow_pos_nonneg; subst k; lia).
  split.
  - intros Hle. rewrite Hbase at 1.
    rewrite Z.div_add_l by lia.
    assert (H2 : 2 ^ 1 <= 2 ^ k) by (apply Z.pow_le_mono_r; subst k; lia).
    rewrite Z.div_small by (change (2 ^ 1) with 2 in H2; lia).
    rewrite Z.add_0_r. now rewrite Hbase.
  - intros H32. replace k with 0 by (subst k; lia).
    change (2 ^ 0) with 1. rewrite Z.div_1_r. lia.
Qed.

Lemma existsb_join (f : char -> bool) sep ps :
  f sep = false ->
  Forall (fun p => existsb f p = false) ps ->
  existsb f (join sep ps) = false.
Proof.
  intros Hsep H. induction H as [|p ps Hp _ IH]; [reflexivity|].
  destruct ps as [|q ps]; [exact Hp|].
  rewrite join_cons, existsb_app, Hp. cbn [existsb orb].
  rewrite Hsep. exact IH.
Qed.

Lemma digits_no_slash s :
  forallb is_digit s = true ->
  existsb (fun c => (c =? SLASH)%N) s = false.
Proof.
  induction s as [|c s IH]; [reflexivity|]. cbn [forallb existsb].
  intros H. apply andb_prop in H as [Hc Hs]. rewrite (IH Hs).
  unfold is_digit in Hc. apply andb_prop in Hc as [Hlo _].
  apply N.leb_le in Hlo.
  destruct (N.eqb_spec c SLASH) as [->|]; [|reflexivity].
  vm_compute in Hlo. contradiction.
Qed.

Lemma parse_octet_digits s b :
  _parse_octet s = Returned b -> forallb is_digit s = true.
Proof.
  unfold _parse_octet. destruct s as [|c s]; [discriminate|].
  unfold isascii_and_isdigit.
  destruct (forallb is_digit (c :: s)); [reflexivity|discriminate].
Qed.

(** The text of an address holds no slash. *)
Lemma address_no_slash a ip :
  _ip_int_from_string a = Returned ip ->
  existsb (fun c => (c =? SLASH)%N) a = false.
Proof.
  intros H. rewrite <- (join_split DOT a).
  apply existsb_join; [reflexivity|].
  unfold _ip_int_from_string in H. destruct a as [|c a]; [discriminate|].
  destruct (negb _) in H; [discriminate|].
  destruct (mapM _parse_octet (split DOT (c :: a))) as [bs|e] eqn:Hm.
  - clear H. revert bs Hm.
    induction (split DOT (c :: a)) as [|o os IH]; intros bs Hm;
      [constructor|].
    cbn [mapM] in Hm. destruct (_parse_octet o) as [b|] eqn:Ho;
      [|discriminate].
    cbn [obind] in Hm. destruct (mapM _parse_octet os) as [bs'|] eqn:Hos;
      [|discriminate].
    constructor; [|eapply IH; reflexivity].
    eapply digits_no_slash, parse_octet_digits. exact Ho.
  - cbn [obind oexcept] in H.
    destruct (subclass (cls e) ValueError); discriminate.
Qed.

(** With an address and a mask that hold no slash, the network is read
    from the two of them. *)
Lemma network_with_mask (a m : pystr) :
  existsb (fun c => (c =? SLASH)%N) a = false ->
  existsb (fun c => (c =? SLASH)%N) m = false ->
  _split_addr_prefix (with_mask a m) = Returned (a, MaskStr m).
Proof.
  intros Ha Hm. unfold _split_addr_prefix, _split_optional_netmask, with_mask.
  unfold char in *.
  rewrite (@split_app_sep SLASH a m Ha), (@split_no_sep SLASH m Hm).
  reflexivity.
Qed.

Lemma masks_checked : forallb mask_texts_ok (map Z.of_nat (seq 0 33)) = true.
Proof. vm_compute. reflexivity. Qed.

Lemma mask_texts p : 0 <= p <= 32 -> mask_texts_ok p = true.
Proof.
  intros Hp. pose proof masks_checked as H. rewrite forallb_forall in H.
  apply H. rewrite <- (Z2Nat.id p) by lia. apply in_map, in_seq. lia.
Qed.

Lemma is_prefix_answer_inv o p :
  is_prefix_answer o p = true -> o = Returned (_ip_int_from_prefix p, p).
Proof.
  destruct o as [[m q]|]; cbn [is_prefix_answer]; [|discriminate].
  intros H. apply andb_prop in H as [Hm Hq].
  apply Z.eqb_eq in Hm, Hq. now subst.
Qed.

Lemma gateway_by_mask (a m1 m2 : pystr) :
  existsb (fun c => (c =? SLASH)%N) a = false ->
  existsb (fun c => (c =? SLASH)%N) m1 = false ->
  existsb (fun c => (c =? SLASH)%N) m2 = false ->
  _make_netmask (MaskStr m1) = _make_netmask (MaskStr m2) ->
  calculateGatewayIp (with_mask a m1) = calculateGatewayIp (with_mask a m2).
Proof.
  intros Ha H1 H2 Hm. unfold calculateGatewayIp, IPv4Network_of_str.
  rewrite !network_with_mask by assumption. cbn [obind]. now rewrite Hm.
Qed.

(** X15. After the slash the prefix length, the dotted netmask and, for
    the lengths 1 to 31, the dotted hostmask are read alike: the
    calculator answers the same for each. The two masks that could be
    either are taken as netmasks: 0.0.0.0 is /0 and 255.255.255.255 is
    /32. *)
Theorem mask_notations_agree a ip p :
  _ip_int_from_string a = Returned ip ->
  0 <= p <= 32 ->
  calculateGatewayIp (with_mask a (netmask_text p))
  = calculateGatewayIp (with_mask a (str_of_int p))
  /\ (1 <= p <= 31 ->
      calculateGatewayIp (with_mask a (hostmask_text p))
      = calculateGatewayIp (with_mask a (str_of_int p)))
  /\ hostmask_text 32 = netmask_text 0
  /\ hostmask_text 0 = netmask_text 32.
Proof.
  intros Ha Hp. pose proof (address_no_slash _ Ha) as Hslash.
  pose proof (mask_texts Hp) as Hok. unfold mask_texts_ok in Hok.
  cbv zeta in Hok.
  repeat match type of Hok with
         | (_ && _)%bool = true =>
             let H := fresh "H" in apply andb_prop in Hok as [Hok H]
         end.
  repeat match goal with
         | Hn : negb _ = true |- _ => apply negb_true_iff in Hn
         end.
  apply is_prefix_answer_inv in Hok.
  match goal with
  | Hn : is_prefix_answer _ p = true |- _ => apply is_prefix_answer_inv in Hn
  end.
  split; [|split; [|split; reflexivity]].
  - apply gateway_by_mask; try assumption. congruence.
  - intros Hmid.
    match goal with
    | Hh : (_ || _)%bool = true |- _ =>
        apply orb_prop in Hh as [Hh|Hh];
        [apply orb_prop in Hh as [Hh|Hh]; apply Z.eqb_eq in Hh; lia|];
        apply is_prefix_answer_inv in Hh
    end.
    apply gateway_by_mask; try assumption. congruence.
Qed.

End GatewayMore.

(** ** Writing the artifacts back *)

Section RenderFacts.
Import Script Re.
Variable G : Engine.
Local Opaque u.

Lemma line_is_body (x : pystr) : has_fence x = false -> is_body (x ++ [NEWLINE]).
Proof.
  unfold is_body. rewrite <- app_assoc. cbn [app].
  induction x as [|c x IH]; intros H; [reflexivity|].
  apply has_fence_cons in H as [Hf Hx]. cbn [app].
  rewrite has_fence_eq, (IH Hx).
  destruct x as [|d [|e x]]; cbn [app fence] in *.
  - now rewrite andb_false_r.
  - now rewrite andb_false_r.
  - destruct ((c =? BACKTICK) && (d =? BACKTICK) && (e =? BACKTICK))%N;
      [discriminate|reflexivity].
Qed.

Lemma strip_line (x : pystr) : trimmed x -> strip (x ++ [NEWLINE]) = x.
Proof.
  intros (Hne & _ & Hh & Hl). unfold strip, rstrip.
  assert (lstrip (x ++ [NEWLINE]) = x ++ [NEWLINE]) as ->.
  { destruct x as [|c x]; [congruence|]. cbn [hd] in Hh.
    cbn [app lstrip]. now rewrite Hh. }
  rewrite rev_app_distr. change (rev [NEWLINE]) with [NEWLINE].
  cbn [app lstrip]. change (isspace NEWLINE) with true. cbv iota.
  destruct (exists_last Hne) as (t & d & E). subst x.
  rewrite last_last in Hl. rewrite rev_app_distr. cbn [rev app lstrip].
  rewrite Hl. cbn [rev]. now rewrite rev_involutive.
Qed.

Lemma encodable_render (x y z : pystr) :
  encodable x = true -> encodable y = true -> encodable z = true ->
  encodable (render x y z) = true.
Proof.
  intros Ex Ey Ez. unfold render, block, FENCE.
  repeat (rewrite encodable_app || rewrite encodable_cons).
  rewrite Ex, Ey, Ez. vm_compute. reflexivity.
Qed.

(** X16. Writing three trimmed, fence-free texts that standard output
    can encode in the format DEFAULT_SYSTEM_MESSAGE prescribes and
    extracting them gives them back; so what the extractor returns,
    written out again in that format, is extracted unchanged. *)
Theorem render_then_extract (w w' : world G) :
  (forall x y z,
     trimmed x -> trimmed y -> trimmed z ->
     has_fence x = false -> has_fence y = false -> has_fence z = false ->
     encodable x = true -> encodable y = true -> encodable z = true ->
     fst (extractRelevantContent (completion (render x y z)) w)
     = Returned (Some (artifact_set x y z)))
  /\ (forall r a,
        fst (extractRelevantContent r w') = Returned (Some a) ->
        exists x y z,
          a = artifact_set x y z
          /\ fst (extractRelevantContent (completion (render x y z)) w)
             = Returned (Some a)).
Proof.
  assert (Hround : forall x y z,
             trimmed x -> trimmed y -> trimmed z ->
             has_fence x = false -> has_fence y = false ->
             has_fence z = false ->
             encodable x = true -> encodable y = true ->
             encodable z = true ->
             fst (extractRelevantContent (completion (render x y z)) w)
             = Returned (Some (artifact_set x y z))).
  { intros x y z Tx Ty Tz Fx Fy Fz Ex Ey Ez.
    rewrite (extract_encodable w (completion_carries _)
               (encodable_render _ _ _ Ex Ey Ez)).
    unfold render.
    change (block (u "Dockerfile") (x ++ [NEWLINE]) ++ [NEWLINE; NEWLINE]
            ++ block (u "ini") (y ++ [NEWLINE]) ++ [NEWLINE; NEWLINE]
            ++ block (u "bash") (z ++ [NEWLINE]) ++ [])
      with ([] ++ block (u "Dockerfile") (x ++ [NEWLINE])
            ++ [NEWLINE; NEWLINE]
            ++ block (u "ini") (y ++ [NEWLINE]) ++ [NEWLINE; NEWLINE]
            ++ block (u "bash") (z ++ [NEWLINE]) ++ []).
    rewrite findall_three;
      try (apply line_is_body; assumption); try (vm_compute; reflexivity).
    rewrite bind_first_three_spec, !strip_line by assumption.
    cbv zeta. unfold all_values, artifact_set, block, FENCE.
    cbn [forallb snd truthy app].
    destruct Tx as [Nx _], Ty as [Ny _], Tz as [Nz _].
    destruct x; [congruence|]. destruct y; [congruence|].
    destruct z; [congruence|]. reflexivity. }
  split; [exact Hround|].
  intros r a Ha.
  destruct (extract_some_carries _ _ Ha) as (t & Hr & _).
  destruct (extract_some_inv _ Ha Hr)
    as (b0 & b1 & b2 & bs & Hf & -> & (N0 & N1 & N2) & (B0 & B1 & B2) & Ht).
  pose proof (encodable_findall _ Ht) as He. rewrite Hf in He.
  inversion He as [|? ? E0 He1]; subst.
  inversion He1 as [|? ? E1 He2]; subst.
  inversion He2 as [|? ? E2 _]; subst.
  exists (strip b0), (strip b1), (strip b2). split; [reflexivity|].
  apply Hround; auto using strip_trimmed, strip_no_fence, encodable_strip.
Qed.

End RenderFacts.

(** ** The further statements at concrete inputs *)

Lemma artifacts_come_from_blocks_witness :
  exists b0 b1 b2,
    sample_artifacts = artifact_set (strip b0) (strip b1) (strip b2)
    /\ Forall (fun b => exists p l q,
                 is_label l /\ is_body b /\ sample_reply = p ++ block l b ++ q)
              [b0; b1; b2].
Proof.
  refine (@artifacts_come_from_blocks scripted (completion sample_reply)
            sample_reply (fresh []) sample_artifacts _
            (completion_carries _)).
  vm_compute; reflexivity.
Defined.

Lemma artifacts_are_trimmed_witness :
  Forall (fun kv => trimmed (snd kv) /\ Re.has_fence (snd kv) = false)
         sample_artifacts.
Proof.
  refine (@artifacts_are_trimmed scripted (completion sample_reply)
            (fresh []) sample_artifacts _).
  vm_compute; reflexivity.
Defined.

Lemma artifacts_fit_in_reply_witness :
  (list_sum (map (fun kv => List.length (snd kv)) sample_artifacts) + 21
   <= List.length sample_reply)%nat.
Proof.
  refine (@artifacts_fit_in_reply scripted (completion sample_reply)
            sample_reply (fresh []) sample_artifacts _
            (completion_carries _)).
  vm_compute; reflexivity.
Defined.

Lemma validatePrompt_spec_witness :
  Cli.validatePrompt (u " x") (fresh []) = (Returned true, fresh [])
  /\ Cli.validatePrompt (u " " ++ [NEWLINE]) (fresh [])
     = (Returned false,
        World scripted [] []
              [[Text (u "Prompt cannot be empty. Please try again.")]] []).
Proof.
  split.
  - refine (proj1 (@validatePrompt_spec scripted (fresh []) (u " x")) _).
    exists 120%N. split; [right; left|]; reflexivity.
  - refine (proj2 (@validatePrompt_spec scripted (fresh [])
                     (u " " ++ [NEWLINE])) _).
    intros c Hc. vm_compute in Hc. destruct Hc as [<-|[<-|[]]]; reflexivity.
Defined.

Lemma stop_and_remove_report_witness :
  (calls (snd (Cli.stopContainer (fresh [Completed 0 [NEWLINE]])))
   = [exists_cmd Script.CONTAINER_NAME]
   /\ printed (snd (Cli.removeContainer (fresh [Completed 0 [NEWLINE]])))
      = [[Text (u "[!] Container not found.")]])
  /\ calls (snd (Cli.stopContainer
                   (fresh [Completed 0 (u "abc123" ++ [NEWLINE]);
                           Completed 1 []])))
     = [exists_cmd Script.CONTAINER_NAME; stop_cmd (u "abc123")]
  /\ printed (snd (Cli.removeContainer
                     (fresh [Completed 0 (u "abc123" ++ [NEWLINE]);
                             Completed 1 []])))
     = [[Text (u "[+] Container removed.")]].
Proof.
  split; [|split].
  - pose proof (@stop_and_remove_report scripted
                  (fresh [Completed 0 [NEWLINE]]) (Completed 0 [NEWLINE])
                  eq_refl) as H.
    cbv zeta in H. destruct H as [H _].
    destruct (H eq_refl) as [Hs Hr]. rewrite Hs, Hr. split; reflexivity.
  - pose proof (@stop_and_remove_report scripted
                  (fresh [Completed 0 (u "abc123" ++ [NEWLINE]);
                          Completed 1 []])
                  (Completed 0 (u "abc123" ++ [NEWLINE])) eq_refl) as H.
    cbv zeta in H. destruct H as [_ H].
    assert (Hid : strip (stdout (Completed 0 (u "abc123" ++ [NEWLINE])))
                  <> []) by (vm_compute; discriminate).
    destruct (H Hid) as [Hs _]. rewrite (Hs (Completed 1 []) eq_refl).
    reflexivity.
  - pose proof (@stop_and_remove_report scripted
                  (fresh [Completed 0 (u "abc123" ++ [NEWLINE]);
                          Completed 1 []])
                  (Completed 0 (u "abc123" ++ [NEWLINE])) eq_refl) as H.
    cbv zeta in H. destruct H as [_ H].
    assert (Hid : strip (stdout (Completed 0 (u "abc123" ++ [NEWLINE])))
                  <> []) by (vm_compute; discriminate).
    destruct (H Hid) as [_ Hr]. rewrite (Hr (Completed 1 []) eq_refl).
    reflexivity.
Defined.

Lemma build_and_create_log_witness :
  logged (snd (Cli.buildDockerImage (u "generated_honeypot")
                 (fresh [Completed 1 []])))
  = [(ERROR, [Text (u "Error building Docker image: ");
              Error (Exn CalledProcessError
                         (NonZeroExit 1 (build_cmd (u "generated_honeypot"))))])]
  /\ logged (snd (Cli.buildDockerImage (u "generated_honeypot")
                    (fresh [Completed 0 []])))
     = []
  /\ logged (snd (Script.createHostOnlyNetwork
                    (u "honeynet") (u "10.0.0.0/24") (u "10.0.0.1")
                    (fresh [Completed 0 []])))
     = []
  /\ logged (snd (Script.createHostOnlyNetwork
                    (u "honeynet") (u "10.0.0.0/24") (u "10.0.0.1")
                    (fresh [Completed 125 []])))
     = [(ERROR, [Text (u "Error creating network: ");
                 Error (Exn CalledProcessError
                            (NonZeroExit 125
                               (create_cmd (u "honeynet") (u "10.0.0.0/24")
                                           (u "10.0.0.1"))))])].
Proof.
  split; [|split; [|split]].
  - rewrite (proj1 (@build_and_create_log scripted (fresh [Completed 1 []]))
               (u "generated_honeypot") (Completed 1 []) eq_refl).
    reflexivity.
  - rewrite (proj1 (@build_and_create_log scripted (fresh [Completed 0 []]))
               (u "generated_honeypot") (Completed 0 []) eq_refl).
    reflexivity.
  - rewrite (proj2 (@build_and_create_log scripted (fresh [Completed 0 []]))
               (u "honeynet") (u "10.0.0.0/24") (u "10.0.0.1")
               (Completed 0 []) eq_refl).
    reflexivity.
  - rewrite (proj2 (@build_and_create_log scripted
                      (fresh [Completed 125 []]))
               (u "honeynet") (u "10.0.0.0/24") (u "10.0.0.1")
               (Completed 125 []) eq_refl).
    reflexivity.
Defined.

Lemma gui_query_agrees_witness :
  Gui.check_container_exists (u "honeypot")
    (fresh [Completed 0 (u "abc123" ++ [NEWLINE])])
  = Utils.checkContainerExists (u "honeypot")
      (fresh [Completed 0 (u "abc123" ++ [NEWLINE])])
  /\ fst (Gui.check_container_exists (u "honeypot")
            (World missing tt [] [] []))
     = Raised (Exn FileNotFoundError
                   (Other (u "No such file or directory: 'docker'")))
  /\ fst (Utils.checkContainerExists (u "honeypot")
            (World missing tt [] [] []))
     = Returned [].
Proof.
  split.
  - exact (proj1 (@gui_query_agrees scripted
                    (fresh [Completed 0 (u "abc123" ++ [NEWLINE])])
                    (u "honeypot"))
                 (Completed 0 (u "abc123" ++ [NEWLINE])) eq_refl).
  - destruct (proj2 (@gui_query_agrees missing (World missing tt [] [] [])
                       (u "honeypot"))
                    (Exn FileNotFoundError
                         (Other (u "No such file or directory: 'docker'")))
                    eq_refl) as (Hg & Hu & _).
    split; [exact Hg|exact Hu].
Defined.

Lemma getMultilineInput_reads_to_END_witness :
  Console.getMultilineInput typed_console
  = (Console.Got (u "an ssh server" ++ [NEWLINE] ++ u "  with weak passwords"),
     Console.Console [u "ls"] [Console.PROMPT_BANNER])
  /\ Ipaddress.split NEWLINE
       (Ipaddress.join NEWLINE [u "an ssh server"; u "  with weak passwords"])
     = [u "an ssh server"; u "  with weak passwords"].
Proof.
  destruct (@getMultilineInput_reads_to_END typed_console
              [u "an ssh server"; u "  with weak passwords"]
              (u " end ") [u "ls"]) as [Hrun Hback].
  - reflexivity.
  - repeat constructor.
  - reflexivity.
  - split; [exact Hrun|]. apply Hback; [discriminate|].
    repeat constructor.
Defined.

Lemma readers_need_END_witness :
  Console.getMultilineInput open_console
  = (Console.EOFError, Console.Console [] [Console.PROMPT_BANNER])
  /\ Console.getMultilineInputForSystemMessage (u "Be brief.") open_console
     = (Console.EOFError, Console.Console [] [Console.SYSTEM_BANNER]).
Proof.
  refine (@readers_need_END open_console (u "Be brief.") _).
  repeat constructor.
Defined.

Lemma system_message_only_grows_witness :
  Console.getMultilineInputForSystemMessage (u "Be brief.") typed_console
  = (Console.Got (u "Be brief." ++ NEWLINE
                    :: Ipaddress.join NEWLINE
                         [u "an ssh server"; u "  with weak passwords"]),
     Console.Console [u "ls"] [Console.SYSTEM_BANNER])
  /\ Console.getMultilineInputForSystemMessage (u "Be brief.")
       (Console.Console [u "End"] [])
     = (Console.Got (u "Be brief."),
        Console.Console [] [Console.SYSTEM_BANNER]).
Proof.
  split.
  - refine (@system_message_only_grows typed_console (u "Be brief.")
              [u "an ssh server"; u "  with weak passwords"]
              (u " end ") [u "ls"] eq_refl _ eq_refl).
    repeat constructor.
  - exact (@system_message_only_grows (Console.Console [u "End"] [])
             (u "Be brief.") [] (u "End") [] eq_refl (Forall_nil _) eq_refl).
Defined.

Lemma blank_prompt_is_refused_witness :
  exists prompt c',
    Console.getMultilineInput blank_console = (Console.Got prompt, c')
    /\ fst (Cli.validatePrompt prompt (fresh [])) = Returned false.
Proof.
  refine (@blank_prompt_is_refused blank_console [u "   "; []] (u "END") []
            scripted (fresh []) eq_refl _ eq_refl).
  repeat constructor.
Defined.

Lemma gateway_in_subnet_witness :
  exists gw,
    Ipaddress._ip_int_from_string (u "192.168.200.1") = Returned gw
    /\ gw = (3232286720 + 1)%Z
    /\ Z.land gw 4294967040 = 3232286720%Z.
Proof.
  destruct (@gateway_in_subnet (u "192.168.200.77/24")
              (Ipaddress.Build_IPv4Network 3232286720 4294967040 24)
              (u "192.168.200.1")) as (gw & Hg & Hv & Hin & _).
  - vm_compute; reflexivity.
  - vm_compute; reflexivity.
  - exists gw. split; [exact Hg|]. split; [exact Hv|].
    apply Hin. vm_compute; discriminate.
Defined.

Lemma mask_notations_agree_witness :
  Utils.calculateGatewayIp (with_mask (u "10.0.0.0") (netmask_text 8))
  = Utils.calculateGatewayIp (with_mask (u "10.0.0.0") (Ipaddress.str_of_int 8))
  /\ Utils.calculateGatewayIp (with_mask (u "10.0.0.0") (hostmask_text 8))
     = Utils.calculateGatewayIp
         (with_mask (u "10.0.0.0") (Ipaddress.str_of_int 8))
  /\ with_mask (u "10.0.0.0") (netmask_text 8) = u "10.0.0.0/255.0.0.0"
  /\ with_mask (u "10.0.0.0") (hostmask_text 8) = u "10.0.0.0/0.255.255.255".
Proof.
  destruct (@mask_notations_agree (u "10.0.0.0") 167772160 8)
    as (Hn & Hh & _).
  - vm_compute; reflexivity.
  - lia.
  - split; [exact Hn|]. split; [apply Hh; lia|].
    split; vm_compute; reflexivity.
Defined.

Lemma render_then_extract_witness :
  fst (Script.extractRelevantContent
         (completion (render (u "FROM ubuntu:14.04")
                             (u "[supervisord]" ++ [NEWLINE]
                              ++ u "nodaemon=true")
                             (u "#!/bin/bash")))
         (fresh []))
  = Returned (Some sample_artifacts)
  /\ exists x y z,
       sample_artifacts = artifact_set x y z
       /\ fst (Script.extractRelevantContent (completion (render x y z))
                 (fresh []))
          = Returned (Some sample_artifacts).
Proof.
  destruct (@render_then_extract scripted (fresh []) (fresh []))
    as [Hround Hback].
  split.
  - apply Hround;
      try (vm_compute; reflexivity);
      (split; [vm_compute; discriminate|]; vm_compute; auto).
  - apply (Hback (completion sample_reply)). vm_compute; reflexivity.
Defined.
